(** * graphql-mesh, packages/config/src/utils.ts

    A shallow embedding of the configuration utilities of graphql-mesh:
    the convention-based package lookup [getPackage] with its
    specialisations, the return-data extractor [resolveReturnData] and
    the compilation of additional resolvers [resolveAdditionalResolvers].

    Two revisions of the module are embedded.  Where they agree there is
    one definition; where they differ the older one lives in [Module Base]
    and the newer one in [Module Extended]. *)

From Stdlib Require Import ZArith.
From stdpp Require Import gmap strings list fin_maps.

Local Set Warnings "-register-all".

(** ** JavaScript values *)

(** The constructor an object was made with, as far as [instanceof] and
    the code of this module can tell. [GraphQLError] extends [Error]. *)
Inductive class : Type :=
| PlainObject
| ErrorClass
| GraphQLErrorClass.

Inductive value : Type :=
| VUndefined
| VNull
| VBool (b : bool)
| VNum (n : Z)
| VStr (s : string)
| VFun (name : string)
| VArr (items : list value)
| VObj (cls : class) (props : list (string * value)).

(** JavaScript truthiness, as used by [if], [!], [||] and [?:]. *)
Definition truthy (v : value) : bool :=
  match v with
  | VUndefined | VNull => false
  | VBool b => b
  | VNum n => negb (Z.eqb n 0)
  | VStr s => negb (String.eqb s "")
  | VFun _ | VArr _ | VObj _ _ => true
  end.

(** [a || b] *)
Definition js_or (a b : value) : value := if truthy a then a else b.

(** Own-property lookup in an object literal. *)
Fixpoint lookup_prop (props : list (string * value)) (key : string) : value :=
  match props with
  | [] => VUndefined
  | (k, v) :: rest => if String.eqb k key then v else lookup_prop rest key
  end.

(** [v.key] for a value that is neither [null] nor [undefined]. *)
Definition prop (v : value) (key : string) : value :=
  match v with
  | VObj _ props => lookup_prop props key
  | _ => VUndefined
  end.

(** [v instanceof Error] *)
Definition instanceofError (v : value) : bool :=
  match v with
  | VObj ErrorClass _ | VObj GraphQLErrorClass _ => true
  | _ => false
  end.

(** [const isGraphQLError = error => error instanceof GraphQLError] *)
Definition isGraphQLError (error : value) : bool :=
  match error with
  | VObj GraphQLErrorClass _ => true
  | _ => false
  end.

(** [typeof v === 'object'] *)
Definition typeofObject (v : value) : bool :=
  match v with
  | VNull | VArr _ | VObj _ _ => true
  | _ => false
  end.

(** [Array.isArray(v)] *)
Definition isArray (v : value) : bool :=
  match v with
  | VArr _ => true
  | _ => false
  end.

(** ** Strings *)

(** [s.includes(sub)] *)
Fixpoint includes (s sub : string) : bool :=
  if String.prefix sub s then true
  else match s with
       | EmptyString => false
       | String _ s' => includes s' sub
       end.

(** A thrown [Error], kept by its message, or a normal result. *)
Inductive result (A : Type) : Type :=
| Ok (a : A)
| Throw (message : string).
Arguments Ok {A} a.
Arguments Throw {A} message.

(** ** The extension resolver *)

(** What [await importFn(moduleName)] gives: the module's exports, always
    an object, or a rejection with an [Error] carrying a message. *)
Inductive loaded : Type :=
| Exports (exported : list (string * value))
| LoadError (message : string).

Definition ImportFn : Type := string -> loaded.

(** The functions of npm packages and of Node that the module calls on
    strings: [paramCase] of param-case, [kebabCase] of lodash,
    [resolve] of path and [process.cwd()]. *)
Class StringLib : Type := {
  paramCase : string -> string;
  kebabCase : string -> string;
  path_resolve : string -> string -> string;
  cwd : string
}.

Section ExtensionResolver.
Context `{StringLib}.

(** The first seven entries of [possibleNames]. *)
Definition possibleNames (name type : string) : list string :=
  let casedName := paramCase name in
  let casedType := paramCase type in
  [ "@graphql-mesh/" +:+ casedName;
    "@graphql-mesh/" +:+ casedName +:+ "-" +:+ casedType;
    "@graphql-mesh/" +:+ casedType +:+ "-" +:+ casedName;
    casedName;
    casedName +:+ "-" +:+ casedType;
    casedType +:+ "-" +:+ casedName;
    casedType ].

(** [possibleNames] after the conditional [push], with the resolved
    path appended. *)
Definition possibleModules (name type : string) : list string :=
  let possibleNames :=
    if includes name "-" then possibleNames name type ++ [name]
    else possibleNames name type in
  possibleNames ++ [path_resolve cwd name].

(** The test of the [catch] block: the failure is about a module that
    is missing. *)
Definition isNotFound (moduleName message : string) : bool :=
  includes message ("Cannot find module '" +:+ moduleName +:+ "'")
  || includes message "Could not locate module".

(** The loader fails on [moduleName] and the failure says that the
    module is missing. *)
Definition missing (importFn : ImportFn) (moduleName : string) : Prop :=
  exists message,
    importFn moduleName = LoadError message /\ isNotFound moduleName message = true.

(** [exported.default || exported.parser || exported] *)
Definition pickExport (exported : list (string * value)) : value :=
  js_or (js_or (lookup_prop exported "default") (lookup_prop exported "parser"))
        (VObj PlainObject exported).

(** The [for] loop over [possibleModules] and the final [throw]. The
    first component lists the identifiers handed to [importFn], in the
    order of the calls. *)
Fixpoint tryModules (importFn : ImportFn) (name type : string)
    (modules : list string) : list string * result value :=
  match modules with
  | [] => ([], Throw ("Unable to find " +:+ type +:+ " matching " +:+ name))
  | moduleName :: rest =>
      match importFn moduleName with
      | Exports exported => ([moduleName], Ok (pickExport exported))
      | LoadError message =>
          if negb (includes message ("Cannot find module '" +:+ moduleName +:+ "'"))
             && negb (includes message "Could not locate module")
          then ([moduleName],
                Throw ("Unable to load " +:+ type +:+ " matching " +:+ name
                       +:+ ": " +:+ message))
          else
            let '(tried, r) := tryModules importFn name type rest in
            (moduleName :: tried, r)
      end
  end.

Definition getPackage (name type : string) (importFn : ImportFn)
    : list string * result value :=
  tryModules importFn name type (possibleModules name type).

Definition getHandler (name : string) (importFn : ImportFn)
    : list string * result value :=
  getPackage name "handler" importFn.

(** [resolveMerger]; [StitchingMerger] is the imported default. *)
Definition StitchingMerger : value := VFun "StitchingMerger".

Definition resolveMerger (mergerConfig : option string) (importFn : ImportFn)
    : list string * result value :=
  match mergerConfig with
  | Some name =>
      if negb (String.eqb name "") then
        match getPackage name "merger" importFn with
        | (tried, Ok pkg) => (tried, Ok (js_or (prop pkg "default") pkg))
        | (tried, Throw message) => (tried, Throw message)
        end
      else ([], Ok StitchingMerger)
  | None => ([], Ok StitchingMerger)
  end.

(** What [new Class(config)] builds is up to the loaded class. *)
Context (construct : value -> value -> value).

(** The default export of [@graphql-mesh/cache-inmemory-lru]. *)
Definition InMemoryLRUCache : value := VFun "InMemoryLRUCache".

(** [resolveCache]. [cacheConfig] is the configuration object, if any,
    by its entries in key order. With no key at all [cacheName] is
    [undefined] and [cacheName.toString()] throws a [TypeError]. *)
Definition resolveCache (cacheConfig : option (list (string * value)))
    (importFn : ImportFn) : list string * result value :=
  match cacheConfig with
  | Some [] => ([], Throw "TypeError")
  | Some ((cacheName, config) :: _) =>
      let moduleName := kebabCase cacheName in
      match getPackage moduleName "cache" importFn with
      | (tried, Ok pkg) =>
          let Cache := js_or (prop pkg "default") pkg in
          (tried, Ok (construct Cache config))
      | (tried, Throw message) => (tried, Throw message)
      end
  | None => ([], Ok (construct InMemoryLRUCache VUndefined))
  end.

(** [resolvePubSub]. The configuration is a name or a [{name, config}]
    object; the in-process bus is built on an [EventEmitter]. *)
Inductive pubsubYamlConfig : Type :=
| PubSubName (name : string)
| PubSubObject (name : string) (config : value).

Definition eventEmitter : value :=
  VObj PlainObject [("captureRejections", VBool true)].

Definition InProcessPubSub : value :=
  construct (VFun "PubSub") (VObj PlainObject [("eventEmitter", eventEmitter)]).

Definition resolvePubSub (config : option pubsubYamlConfig)
    (importFn : ImportFn) : list string * result value :=
  let named (pubsubName : string) (pubsubConfig : value) :=
    let moduleName := kebabCase pubsubName in
    match getPackage moduleName "pubsub" importFn with
    | (tried, Ok pkg) =>
        let PubSub := js_or (prop pkg "default") pkg in
        (tried, Ok (construct PubSub pubsubConfig))
    | (tried, Throw message) => (tried, Throw message)
    end in
  match config with
  | Some (PubSubName name) =>
      if negb (String.eqb name "") then named name VUndefined
      else ([], Ok InProcessPubSub)
  | Some (PubSubObject name config) => named name config
  | None => ([], Ok InProcessPubSub)
  end.

End ExtensionResolver.

(** ** The return-data extractor *)

(** GraphQL output types, as far as [getNullableType] and [ofType] look
    at them. *)
Inductive GraphQLOutputType : Type :=
| NamedType (name : string)
| ListType (ofType : GraphQLOutputType)
| NonNullType (ofType : GraphQLOutputType).

(** [getNullableType] of graphql-js. *)
Definition getNullableType (type : GraphQLOutputType) : GraphQLOutputType :=
  match type with
  | NonNullType t => t
  | t => t
  end.

(** [type.ofType]; a named type has no such property. *)
Definition ofType (type : GraphQLOutputType) : option GraphQLOutputType :=
  match type with
  | ListType t | NonNullType t => Some t
  | NamedType _ => None
  end.

(** [GraphQLResolveInfo], by the parts this module and the response-key
    helper read. *)
Record GraphQLResolveInfo : Type := {
  fieldName : string;
  alias : option string;
  returnType : GraphQLOutputType
}.

(** The trailing parameters of the extended [resolveReturnData]:
    [returnType?] and [skipTypeMerging?], as many as the caller passed. *)
Inductive extra : Type :=
| ReturnType (type : option GraphQLOutputType)
| SkipTypeMerging (skip : bool).

(** The options object of a backend call. *)
Record callOptions : Type := {
  selectedFields : value;
  selectionSet : value;
  depth : value
}.

(** A settled promise. *)
Inductive outcome (A : Type) : Type :=
| Fulfilled (a : A)
| Rejected (message : string).
Arguments Fulfilled {A} a.
Arguments Rejected {A} message.

(** The execution context: [context[source].api[method](args, options)],
    awaited. A missing source or method is a rejection like any other. *)
Record Context : Type := {
  api : string -> string -> value -> callOptions -> outcome value
}.

(** The execution-time arguments of a field resolver, bundled. *)
Record ResolverData : Type := {
  root : value;
  args : value;
  context : Context;
  info : GraphQLResolveInfo
}.

(** lodash's [get] and [set] and [stringInterpolator.parse] of
    [@graphql-mesh/utils]. *)
Class ObjectLib : Type := {
  get : value -> string -> value;
  set : value -> string -> value -> value;
  stringInterpolator_parse : string -> ResolverData -> value
}.

(** The primitives of [@graphql-tools/delegate] and
    [@graphql-tools/utils]. [externalTag] is the test of
    [isExternalObject] on a value that has properties, where reading the
    property that carries the unpathed errors is possible; on [null] and
    [undefined] that read throws a [TypeError], whose message is the
    engine's. *)
Class Delegate : Type := {
  UnpathedErrors : Type;
  Subschema : Type;
  externalTag : value -> bool;
  nullishTypeError : value -> string;
  getUnpathedErrors : value -> UnpathedErrors;
  getResponseKeyFromInfo : GraphQLResolveInfo -> string;
  getSubschema : value -> string -> Subschema;
  resolveExternalValue :
    value -> UnpathedErrors -> Subschema -> Context -> GraphQLResolveInfo ->
    list extra -> value
}.

(** [v == null] *)
Definition nullish (v : value) : bool :=
  match v with
  | VUndefined | VNull => true
  | _ => false
  end.

(** [isExternalObject(data)]: reads a property of [data]. *)
Definition isExternalObject `{Delegate} (data : value) : result bool :=
  if nullish data then Throw (nullishTypeError data) else Ok (externalTag data).

(** A value returned or an error thrown inside an [async] function, as
    its promise settles. *)
Definition promiseOf {A : Type} (r : result A) : outcome A :=
  match r with
  | Ok a => Fulfilled a
  | Throw message => Rejected message
  end.

(** [!args.returnData] is false: a path is there and it is not empty. *)
Definition pathGiven (returnData : option string) : bool :=
  match returnData with
  | Some path => negb (String.eqb path "")
  | None => false
  end.

(** [source instanceof Error || !args.returnData ? source : get(...)] *)
Definition extracted `{ObjectLib} (source : value) (returnData : option string) : value :=
  if instanceofError source || negb (pathGiven returnData) then source
  else match returnData with
       | Some path => get source path
       | None => source
       end.


(** ** Promises *)

(** What a resolver or the loader does that can be seen from outside,
    in the order it happens. *)
Inductive event : Type :=
| ImportModule (moduleName : string)
| Warn (message : string)
| ApiCall (source method : string) (methodArgs : value) (options : callOptions)
| ReturnData (source : value).

(** [Promise.all] keeps one slot per promise. The promises settle in
    the order [order] gives their indices; a fulfilment fills its slot
    and the first rejection settles the whole. *)
Fixpoint settle {A : Type} (promises : list (outcome A)) (order : list nat)
    (slots : list (option A)) : outcome (list (option A)) :=
  match order with
  | [] => Fulfilled slots
  | i :: order' =>
      match promises !! i with
      | Some (Fulfilled a) => settle promises order' (<[i := Some a]> slots)
      | Some (Rejected message) => Rejected message
      | None => settle promises order' slots
      end
  end.

(** [await Promise.all(promises)]: [None] while a slot is still empty. *)
Definition promise_all {A : Type} (promises : list (outcome A)) (order : list nat)
    : option (outcome (list A)) :=
  match settle promises order (replicate (length promises) None) with
  | Rejected message => Some (Rejected message)
  | Fulfilled slots => Fulfilled <$> mapM id slots
  end.

(** The events of the continuations that run as the promises settle. *)
Definition completions (continuations : list (list event)) (order : list nat)
    : list event :=
  flat_map (fun i => default [] (continuations !! i)) order.

(** An [async] function seen from its caller: given the order in which
    the promises it awaits settle, what it did and how it settled. *)
Definition async (A : Type) : Type := list nat -> list event * option (outcome A).

(** ** The resolver synthesizer *)

(** [args] of a stitching resolver: a mapping from paths to templates,
    in key order, or a function of the resolver data. *)
Inductive ArgsConfig : Type :=
| ArgsMapping (templates : list (string * string))
| ArgsFunction (f : ResolverData -> value).

Module Stitching.
Record t : Type := {
  type : string;
  field : string;
  targetSource : string;
  targetMethod : string;
  args : ArgsConfig;
  resultSelectedFields : value;
  resultSelectionSet : value;
  resultDepth : value;
  returnData : option string;
  requiredSelectionSet : value
}.
End Stitching.

Module Subscription.
Record t : Type := {
  type : string;
  field : string;
  pubsubTopic : string;
  filterBy : option string;
  returnData : option string
}.
End Subscription.

(** An element of [additionalResolvers]. *)
Inductive AdditionalResolver : Type :=
| FilePath (filePath : string)
| StitchingObject (additionalResolver : Stitching.t)
| SubscriptionObject (additionalResolver : Subscription.t).

(** An entry of the resolver map at [type][field]. [subscribe] is kept
    by what [withFilter] is given: the iterator of the interpolated
    topic and the filter expression. *)
Inductive FieldResolver : Type :=
| SubscriptionResolver (subscribe : ResolverData -> value) (filterBy : option string)
    (resolve : value -> value -> Context -> GraphQLResolveInfo -> result value)
| StitchingResolver (selectionSet : value)
    (resolve : value -> value -> Context -> GraphQLResolveInfo -> async value)
| ModuleResolver (exported : value).

(** [castArray] and [head] of lodash. *)
Definition castArray (v : value) : list value :=
  match v with
  | VArr items => items
  | _ => [v]
  end.

Definition head (results : list value) : value :=
  match results with
  | [] => VUndefined
  | r :: _ => r
  end.

(** The string branch of the compilation, after the module has loaded:
    the resolvers it contributes and the warning, if any. *)
Definition fileResolvers (filePath : string) (exported : list (string * value))
    : list event * value :=
  let default := lookup_prop exported "default" in
  let resolvers :=
    if truthy default then
      if truthy (prop default "resolvers") then prop default "resolvers"
      else if typeofObject default then default
      else VNull
    else if truthy (lookup_prop exported "resolvers") then lookup_prop exported "resolvers"
    else VNull in
  if negb (truthy resolvers)
  then ([Warn ("Unable to load resolvers from file: " +:+ filePath)], VObj PlainObject [])
  else ([], resolvers).

(** The subscription branch. *)
Definition subscriptionResolver `{ObjectLib}
    (resolveReturnData :
       value -> option string -> Context -> GraphQLResolveInfo -> result value)
    (pubsub_asyncIterator : value -> value) (additionalResolver : Subscription.t)
    : FieldResolver :=
  SubscriptionResolver
    (fun resolverData =>
       let topic :=
         stringInterpolator_parse (Subscription.pubsubTopic additionalResolver) resolverData in
       pubsub_asyncIterator topic)
    (Subscription.filterBy additionalResolver)
    (fun payload args context info =>
       resolveReturnData payload (Subscription.returnData additionalResolver) context info).

(** Modelled from the spec: [mergeResolvers] of [@graphql-tools/merge],
    whose code is not part of this module. The spec has all contributions
    merged into one resolver map, later descriptors' entries overriding
    earlier ones at the same [type][field] key (last write wins). *)
Definition mergeTwo {R : Type} (earlier later : gmap string (gmap string R))
    : gmap string (gmap string R) :=
  union_with (fun fields fields' => Some (fields' ∪ fields)) earlier later.

Definition mergeResolvers {R : Type} (resolversDefinitions : list (gmap string (gmap string R)))
    : gmap string (gmap string R) :=
  foldl mergeTwo ∅ resolversDefinitions.

(** The entry of a resolver map at [type][field]. *)
Definition entry {R : Type} (resolvers : gmap string (gmap string R))
    (type field : string) : option R :=
  resolvers !! type ≫= (fun fields => fields !! field).

(** A resolvers object that a module exports, read as a resolver map:
    type names, then field names. *)
Definition moduleFields (v : value) : gmap string FieldResolver :=
  match v with
  | VObj _ props => list_to_map (prod_map id ModuleResolver <$> props)
  | _ => ∅
  end.

Definition moduleResolvers (resolvers : value) : gmap string (gmap string FieldResolver) :=
  match resolvers with
  | VObj _ props => list_to_map (prod_map id moduleFields <$> props)
  | _ => ∅
  end.

Module Synthesizer.
Section Synthesizer.
Context `{StringLib} `{ObjectLib}.

(** The two places where the revisions differ. *)
Context (resolveReturnData :
           value -> option string -> Context -> GraphQLResolveInfo -> result value).
Context (stitchingResolver : Stitching.t -> FieldResolver).

(** The body of the [async] function mapped over [additionalResolvers]:
    what it does before it first awaits, and what it does and returns
    once the awaited import has settled. *)
Definition loadResolvers (baseDir : string) (importFn : ImportFn)
    (pubsub_asyncIterator : value -> value) (additionalResolver : AdditionalResolver)
    : list event * (list event * outcome (gmap string (gmap string FieldResolver))) :=
  match additionalResolver with
  | FilePath filePath =>
      let path := path_resolve baseDir filePath in
      ([ImportModule path],
       match importFn path with
       | Exports exported =>
           let '(warnings, resolvers) := fileResolvers filePath exported in
           (warnings, Fulfilled (moduleResolvers resolvers))
       | LoadError message => ([], Rejected message)
       end)
  | SubscriptionObject additionalResolver =>
      ([], ([], Fulfilled
              {[ Subscription.type additionalResolver :=
                 {[ Subscription.field additionalResolver :=
                    subscriptionResolver resolveReturnData pubsub_asyncIterator
                      additionalResolver ]} ]}))
  | StitchingObject additionalResolver =>
      ([], ([], Fulfilled
              {[ Stitching.type additionalResolver :=
                 {[ Stitching.field additionalResolver :=
                    stitchingResolver additionalResolver ]} ]}))
  end.

(** How the function mapped over [additionalResolvers] settles for
    one of them. *)
Definition contribution (baseDir : string) (importFn : ImportFn)
    (pubsub_asyncIterator : value -> value) (additionalResolver : AdditionalResolver)
    : outcome (gmap string (gmap string FieldResolver)) :=
  snd (snd (loadResolvers baseDir importFn pubsub_asyncIterator additionalResolver)).

Definition resolveAdditionalResolvers (baseDir : string)
    (additionalResolvers : option (list AdditionalResolver)) (importFn : ImportFn)
    (pubsub_asyncIterator : value -> value)
    : async (gmap string (gmap string FieldResolver)) :=
  fun order =>
    let started :=
      loadResolvers baseDir importFn pubsub_asyncIterator
        <$> default [] additionalResolvers in
    let log :=
      flat_map fst started ++ completions ((fun p => fst (snd p)) <$> started) order in
    match promise_all ((fun p => snd (snd p)) <$> started) order with
    | Some (Fulfilled loadedResolvers) => (log, Some (Fulfilled (mergeResolvers loadedResolvers)))
    | Some (Rejected message) => (log, Some (Rejected message))
    | None => (log, None)
    end.

End Synthesizer.
End Synthesizer.

(** [reduce(args, reducer, Object.create(null))], also the [for..in]
    loop of the older revision. *)
Definition interpolateArgs `{ObjectLib} (templates : list (string * string))
    (resolverData : ResolverData) : value :=
  foldl (fun object '(path, template) =>
           set object path (stringInterpolator_parse template resolverData))
        (VObj PlainObject []) templates.

Module Extended.
Section Revision.
Context `{ObjectLib} `{Delegate}.

Definition resolveReturnData (source : value) (returnData : option string)
    (context : Context) (info : GraphQLResolveInfo) (rest : list extra)
    : result value :=
  let result := extracted source returnData in
  if isGraphQLError result then Ok (prop result "originalError")
  else
    match isExternalObject result with
    | Throw message => Throw message
    | Ok true => Ok result
    | Ok false =>
        match isExternalObject source with
        | Throw message => Throw message
        | Ok false => Ok result
        | Ok true =>
            let errors := getUnpathedErrors source in
            let responseKey := getResponseKeyFromInfo info in
            let subschema := getSubschema source responseKey in
            Ok (resolveExternalValue result errors subschema context info rest)
        end
    end.

(** [normalizeMethodArgs] *)
Definition normalizeMethodArgs (args : ArgsConfig) (resolverData : ResolverData)
    : value :=
  match args with
  | ArgsFunction f => f resolverData
  | ArgsMapping templates => interpolateArgs templates resolverData
  end.

(** The [async] arrow mapped over [castArray(methodArgs)], from the
    point where the backend call has settled. *)
Definition afterCall (returnData : option string) (context : Context)
    (info : GraphQLResolveInfo) (returnType : option GraphQLOutputType)
    (settled : outcome value) : list event * outcome value :=
  match settled with
  | Fulfilled result =>
      if instanceofError result then ([], Fulfilled VNull)
      else ([ReturnData result],
            promiseOf (resolveReturnData result returnData context info
                       [ReturnType returnType]))
  | Rejected message => ([], Rejected message)
  end.

(** [resolve] of a stitching resolver. *)
Definition stitchingResolve (additionalResolver : Stitching.t)
    (root args : value) (context : Context) (info : GraphQLResolveInfo)
    : async value :=
  fun order =>
    let resolverData :=
      {| root := root; args := args; context := context; info := info |} in
    let methodArgs :=
      normalizeMethodArgs (Stitching.args additionalResolver) resolverData in
    let outputType := getNullableType (returnType info) in
    let returnType :=
      if isArray methodArgs then ofType outputType else Some outputType in
    let options :=
      {| selectedFields := Stitching.resultSelectedFields additionalResolver;
         selectionSet := Stitching.resultSelectionSet additionalResolver;
         depth := Stitching.resultDepth additionalResolver |} in
    let source := Stitching.targetSource additionalResolver in
    let method := Stitching.targetMethod additionalResolver in
    let calls :=
      (fun methodArgs => ApiCall source method methodArgs options)
        <$> castArray methodArgs in
    let promises :=
      (fun methodArgs =>
         afterCall (Stitching.returnData additionalResolver) context info returnType
           (api context source method methodArgs options))
        <$> castArray methodArgs in
    let log := calls ++ completions (fst <$> promises) order in
    match promise_all (snd <$> promises) order with
    | Some (Fulfilled results) =>
        (log, Some (Fulfilled (if isArray methodArgs then VArr results
                               else head results)))
    | Some (Rejected message) => (log, Some (Rejected message))
    | None => (log, None)
    end.

Definition stitchingResolver (additionalResolver : Stitching.t) : FieldResolver :=
  StitchingResolver (Stitching.requiredSelectionSet additionalResolver)
    (stitchingResolve additionalResolver).

Context `{StringLib}.

Definition resolveAdditionalResolvers :=
  Synthesizer.resolveAdditionalResolvers
    (fun payload returnData context info =>
       resolveReturnData payload returnData context info [])
    stitchingResolver.

End Revision.
End Extended.

Module Base.
Section Revision.
Context `{ObjectLib} `{Delegate}.

Definition resolveReturnData (source : value) (returnData : option string)
    (context : Context) (info : GraphQLResolveInfo)
    : result value :=
  let result := extracted source returnData in
  if isGraphQLError result then Ok (prop result "originalError")
  else
    match isExternalObject result with
    | Throw message => Throw message
    | Ok true => Ok result
    | Ok false =>
        match isExternalObject source with
        | Throw message => Throw message
        | Ok false => Ok result
        | Ok true =>
            let errors := getUnpathedErrors source in
            let responseKey := getResponseKeyFromInfo info in
            let subschema := getSubschema source responseKey in
            Ok (resolveExternalValue result errors subschema context info [])
        end
    end.

(** [resolve] of a stitching resolver: one call, awaited. The loop
    [for (const argPath in additionalResolver.args)] finds no key to
    visit in a function. *)
Definition stitchingResolve (additionalResolver : Stitching.t)
    (root args : value) (context : Context) (info : GraphQLResolveInfo)
    : async value :=
  fun order =>
    let resolverData :=
      {| root := root; args := args; context := context; info := info |} in
    let methodArgs :=
      match Stitching.args additionalResolver with
      | ArgsMapping templates => interpolateArgs templates resolverData
      | ArgsFunction _ => VObj PlainObject []
      end in
    let options :=
      {| selectedFields := Stitching.resultSelectedFields additionalResolver;
         selectionSet := Stitching.resultSelectionSet additionalResolver;
         depth := Stitching.resultDepth additionalResolver |} in
    let source := Stitching.targetSource additionalResolver in
    let method := Stitching.targetMethod additionalResolver in
    match api context source method methodArgs options with
    | Fulfilled result =>
        ([ApiCall source method methodArgs options; ReturnData result],
         Some (promiseOf (resolveReturnData result
                          (Stitching.returnData additionalResolver) context info)))
    | Rejected message =>
        ([ApiCall source method methodArgs options], Some (Rejected message))
    end.

Definition stitchingResolver (additionalResolver : Stitching.t) : FieldResolver :=
  StitchingResolver (Stitching.requiredSelectionSet additionalResolver)
    (stitchingResolve additionalResolver).

Context `{StringLib}.

Definition resolveAdditionalResolvers :=
  Synthesizer.resolveAdditionalResolvers resolveReturnData stitchingResolver.

End Revision.
End Base.

(** ** Additional type definitions *)

(** A source as [loadTypedefs] of [@graphql-tools/load] gives it, by the
    three properties the module reads. *)
Record Source : Type := {
  document : value;
  rawSDL : value;
  schema : value
}.

(** [loadTypedefs] with the working directory it is given, and [parse]
    of graphql-js and [printSchemaWithDirectives] of
    [@graphql-tools/utils], both of which may throw. *)
Class TypeDefsLib : Type := {
  loadTypedefs : string -> string -> outcome (list Source);
  parse : value -> result value;
  printSchemaWithDirectives : value -> result value
}.

Section AdditionalTypeDefs.
Context `{TypeDefsLib}.

(** The arrow mapped over [sources]:
    [source.document || parse(source.rawSDL || printSchemaWithDirectives(source.schema))] *)
Definition sourceDocument (source : Source) : result value :=
  if truthy (document source) then Ok (document source)
  else if truthy (rawSDL source) then parse (rawSDL source)
  else match printSchemaWithDirectives (schema source) with
       | Ok printed => parse printed
       | Throw message => Throw message
       end.

(** [sources.map(...)]: the first source that throws ends the map. *)
Fixpoint mapSources (sources : list Source) : result (list value) :=
  match sources with
  | [] => Ok []
  | source :: rest =>
      match sourceDocument source with
      | Ok doc =>
          match mapSources rest with
          | Ok docs => Ok (doc :: docs)
          | Throw message => Throw message
          end
      | Throw message => Throw message
      end
  end.

(** [resolveAdditionalTypeDefs]. The first component lists the calls of
    [loadTypedefs], by pointer and working directory. *)
Definition resolveAdditionalTypeDefs (baseDir : string)
    (additionalTypeDefs : option string) : list (string * string) * outcome value :=
  match additionalTypeDefs with
  | Some pointer =>
      if negb (String.eqb pointer "") then
        ([(pointer, baseDir)],
         match loadTypedefs pointer baseDir with
         | Fulfilled sources =>
             match mapSources sources with
             | Ok docs => Fulfilled (VArr docs)
             | Throw message => Rejected message
             end
         | Rejected message => Rejected message
         end)
      else ([], Fulfilled VUndefined)
  | None => ([], Fulfilled VUndefined)
  end.

End AdditionalTypeDefs.

(** ** The introspection cache *)

(** [isAbsolute] and [join] of path, [pathExists] and [readJSON] of
    [@graphql-mesh/utils]. *)
Class FileSystem : Type := {
  isAbsolute : string -> bool;
  join : string -> string -> string;
  pathExists : string -> bool;
  readJSON : string -> outcome value
}.

(** What is asked of the file system. *)
Inductive fileAccess : Type :=
| PathExists (path : string)
| ReadJSON (path : string).

(** [resolveIntrospectionCache], of the newer revision only. *)
Definition resolveIntrospectionCache `{FileSystem}
    (introspectionCacheConfig : option string) (dir : string)
    : list fileAccess * outcome value :=
  match introspectionCacheConfig with
  | Some config =>
      if negb (String.eqb config "") then
        let absolutePath := if isAbsolute config then config else join dir config in
        if pathExists absolutePath
        then ([PathExists absolutePath; ReadJSON absolutePath], readJSON absolutePath)
        else ([PathExists absolutePath], Fulfilled (VObj PlainObject []))
      else ([], Fulfilled (VObj PlainObject []))
  | None => ([], Fulfilled (VObj PlainObject []))
  end.

(** ** Reading the descriptors *)

(** The files named by the descriptors, in order. *)
Definition filePaths (additionalResolvers : list AdditionalResolver) : list string :=
  omap (fun additionalResolver =>
          match additionalResolver with
          | FilePath filePath => Some filePath
          | _ => None
          end) additionalResolvers.

(** ** Concrete libraries and inputs for the examples *)

Module Examples.

(** On names that are lower-case words joined by dashes [paramCase] and
    [kebabCase] change nothing, and a relative name resolves under the
    working directory. *)
#[export] Instance dashedNames : StringLib := {|
  paramCase := fun s => s;
  kebabCase := fun s => s;
  path_resolve := fun dir name => dir +:+ "/" +:+ name;
  cwd := "/app"
|}.

(** [obj[key] = v] on an object literal. *)
Fixpoint assign (props : list (string * value)) (key : string) (v : value)
    : list (string * value) :=
  match props with
  | [] => [(key, v)]
  | (k, w) :: rest =>
      if String.eqb k key then (k, v) :: rest else (k, w) :: assign rest key v
  end.

(** Paths of one key, templates without placeholders. *)
#[export] Instance singleKeys : ObjectLib := {|
  get := fun source path => prop source path;
  set := fun object path v =>
           match object with
           | VObj cls props => VObj cls (assign props path v)
           | _ => object
           end;
  stringInterpolator_parse := fun template _ => VStr template
|}.

(** An object is external when it carries its unpathed errors under
    the key that stands for the delegation symbol; re-resolving a value
    wraps it with the errors and the subschema it came from. *)
Definition UNPATHED_ERRORS : string := "@@unpathedErrors".

#[export] Instance tagged : Delegate := {|
  UnpathedErrors := value;
  Subschema := string;
  externalTag := fun v =>
    match prop v UNPATHED_ERRORS with VUndefined => false | _ => true end;
  nullishTypeError := fun v =>
    match v with
    | VNull => "Cannot read properties of null"
    | _ => "Cannot read properties of undefined"
    end;
  getUnpathedErrors := fun source => prop source UNPATHED_ERRORS;
  getResponseKeyFromInfo := fun info => default (fieldName info) (alias info);
  getSubschema := fun source responseKey => responseKey;
  resolveExternalValue := fun result errors subschema context info rest =>
    VObj PlainObject
      [("data", result); (UNPATHED_ERRORS, errors); ("subschema", VStr subschema);
       ("extras", VNum (Z.of_nat (length rest)))]
|}.

(** A loader that knows one module. *)
Definition onlyModule (known : string) (exported : list (string * value)) : ImportFn :=
  fun moduleName =>
    if String.eqb moduleName known then Exports exported
    else LoadError ("Cannot find module '" +:+ moduleName +:+ "'").

(** A loader whose every load fails with the given message. *)
Definition failing (message : string -> string) : ImportFn :=
  fun moduleName => LoadError (message moduleName).

(** A loader that breaks on one module and knows no other. *)
Definition brokenModule (broken message : string) : ImportFn :=
  fun moduleName =>
    if String.eqb moduleName broken then LoadError message
    else LoadError ("Cannot find module '" +:+ moduleName +:+ "'").

Definition someInfo : GraphQLResolveInfo :=
  {| fieldName := "books"; alias := None;
     returnType := NonNullType (ListType (NamedType "Book")) |}.

Definition noOptions : callOptions :=
  {| selectedFields := VUndefined; selectionSet := VUndefined; depth := VUndefined |}.

(** A backend that answers [{id: n}] for the argument [n], an [Error]
    for a string, and rejects anything else. *)
Definition backend : Context :=
  {| api := fun source method methodArgs options =>
       match methodArgs with
       | VNum n => Fulfilled (VObj PlainObject [("id", VNum n)])
       | VStr s => Fulfilled (VObj ErrorClass [("message", VStr s)])
       | _ => Rejected "bad request"
       end |}.

(** A stitching resolver whose arguments are what the field is called
    with. *)
Definition forward (type field : string) (returnData : option string) : Stitching.t :=
  {| Stitching.type := type;
     Stitching.field := field;
     Stitching.targetSource := "Library";
     Stitching.targetMethod := "book";
     Stitching.args := ArgsFunction (fun resolverData => args resolverData);
     Stitching.resultSelectedFields := VUndefined;
     Stitching.resultSelectionSet := VUndefined;
     Stitching.resultDepth := VUndefined;
     Stitching.returnData := returnData;
     Stitching.requiredSelectionSet := VUndefined |}.

Definition topic (type field pubsubTopic : string) : Subscription.t :=
  {| Subscription.type := type;
     Subscription.field := field;
     Subscription.pubsubTopic := pubsubTopic;
     Subscription.filterBy := None;
     Subscription.returnData := None |}.

Definition bookResolvers : value :=
  VObj PlainObject [("Query", VObj PlainObject [("books", VFun "books")])].

(** The exports of a module with a default function next to a
    [resolvers] export. *)
Definition setupAndResolvers : list (string * value) :=
  [("default", VFun "setup"); ("resolvers", bookResolvers)].

Definition cause : value := VObj ErrorClass [("message", VStr "connection refused")].

Definition wrapper : value :=
  VObj GraphQLErrorClass [("message", VStr "upstream failed"); ("originalError", cause)].

Definition external (props : list (string * value)) : value :=
  VObj PlainObject ((UNPATHED_ERRORS, VArr []) :: props).

Definition shelf : value := VObj PlainObject [("book", wrapper)].

End Examples.

(** Further inputs for the examples. *)
Module MoreExamples.

(** A file system with one JSON file. *)
#[export] Instance oneFile : FileSystem := {|
  isAbsolute := fun path => String.prefix "/" path;
  join := fun dir path => dir +:+ "/" +:+ path;
  pathExists := fun path => String.eqb path "/app/.mesh/cache.json";
  readJSON := fun path =>
    if String.eqb path "/app/.mesh/cache.json"
    then Fulfilled (VObj PlainObject [("Library", VStr "schema")])
    else Rejected "ENOENT"
|}.

Definition parsed (sdl : string) : value :=
  VObj PlainObject [("kind", VStr "Document"); ("sdl", VStr sdl)].

(** The sources found under four pointers: "types" has documents only,
    one of them next to a text that does not parse; "mixed" has a
    document, a text and a schema; "broken" has a text that does not
    parse in second place; "nowhere" has nothing to load. *)
Definition textOnly (sdl : string) : Source :=
  {| document := VUndefined; rawSDL := VStr sdl; schema := VUndefined |}.

#[export] Instance fourPointers : TypeDefsLib := {|
  loadTypedefs := fun pointer baseDir =>
    if String.eqb pointer "types" then
      Fulfilled
        [ {| document := parsed "type A"; rawSDL := VStr "type {"; schema := VUndefined |};
          {| document := parsed "type B"; rawSDL := VUndefined; schema := VUndefined |} ]
    else if String.eqb pointer "mixed" then
      Fulfilled
        [ {| document := parsed "type A"; rawSDL := VUndefined; schema := VUndefined |};
          textOnly "type B";
          {| document := VUndefined; rawSDL := VStr ""; schema := VFun "schema" |} ]
    else if String.eqb pointer "broken" then
      Fulfilled [ textOnly "type B"; textOnly "type {"; textOnly "type C" ]
    else Rejected "Unable to find any GraphQL type definitions";
  parse := fun source =>
    match source with
    | VStr "type {" => Throw "Syntax Error"
    | VStr sdl => Ok (parsed sdl)
    | _ => Throw "Syntax Error"
    end;
  printSchemaWithDirectives := fun schema => Ok (VStr "schema { query: Query }")
|}.

(** [new Class(config)], kept as a record of the two. *)
Definition instantiate (Class config : value) : value :=
  VObj PlainObject [("class", Class); ("config", config)].

(** A backend that answers every call with an [Error]. *)
Definition closed : Context :=
  {| api := fun source method methodArgs options =>
       Fulfilled (VObj ErrorClass [("message", VStr "closed")]) |}.

(** A module with a default export that itself has a [default]. *)
Definition interop : list (string * value) :=
  [("default", VObj PlainObject [("default", VFun "RedisCache")])].

(** A stitching resolver with a static argument mapping. *)
Definition byTitle (returnData : option string) : Stitching.t :=
  {| Stitching.type := "Query";
     Stitching.field := "book";
     Stitching.targetSource := "Library";
     Stitching.targetMethod := "book";
     Stitching.args := ArgsMapping [("title", "Dune")];
     Stitching.resultSelectedFields := VUndefined;
     Stitching.resultSelectionSet := VUndefined;
     Stitching.resultDepth := VUndefined;
     Stitching.returnData := returnData;
     Stitching.requiredSelectionSet := VUndefined |}.

(** A backend that answers any object argument with a book, a number
    with an [Error], and rejects the rest. *)
Definition library : Context :=
  {| api := fun source method methodArgs options =>
       match methodArgs with
       | VObj _ _ => Fulfilled (VObj PlainObject [("id", VNum 1)])
       | VNum _ => Fulfilled (VObj ErrorClass [("message", VStr "gone")])
       | _ => Rejected "bad request"
       end |}.

(** A backend that answers every call with [null]. *)
Definition mute : Context :=
  {| api := fun source method methodArgs options => Fulfilled VNull |}.

(** A backend that answers a number with [null] and rejects the
    rest. *)
Definition patchy : Context :=
  {| api := fun source method methodArgs options =>
       match methodArgs with
       | VNum _ => Fulfilled VNull
       | _ => Rejected "bad request"
       end |}.

(** A [GraphQLError] that wraps nothing. *)
Definition bare : value := VObj GraphQLErrorClass [("message", VStr "failed")].

End MoreExamples.

(** * Properties *)

(** ** Strings *)

Lemma prefix_spec (sub s : string) :
  String.prefix sub s = true <-> exists rest, s = sub +:+ rest.
Proof.
  revert s. induction sub as [|c sub IH]; intros s.
  - destruct s; simpl; (split; [intros _; by eexists | done]).
  - destruct s as [|d s]; simpl.
    + split; [done | intros [rest Hrest]; discriminate].
    + destruct (Ascii.ascii_dec c d) as [->|Hne].
      * rewrite IH. split; intros [rest Hrest]; exists rest.
        -- by rewrite Hrest.
        -- by injection Hrest.
      * split; [done | intros [rest Hrest]; injection Hrest; congruence].
Qed.

Lemma includes_unfold (s sub : string) :
  includes s sub =
  if String.prefix sub s then true
  else match s with
       | EmptyString => false
       | String _ s' => includes s' sub
       end.
Proof. by destruct s. Qed.

Lemma includes_spec (s sub : string) :
  includes s sub = true <-> exists before after, s = before +:+ sub +:+ after.
Proof.
  induction s as [|c s IH]; rewrite includes_unfold.
  - destruct (String.prefix sub "") eqn:Hp.
    + apply prefix_spec in Hp as [rest Hrest]. split; [|done].
      intros _. by exists "", rest.
    + split; [done|]. intros [before [after Heq]].
      destruct before; [|discriminate]. simpl in Heq.
      assert (String.prefix sub "" = true) by (apply prefix_spec; eauto).
      congruence.
  - destruct (String.prefix sub (String c s)) eqn:Hp.
    + apply prefix_spec in Hp as [rest Hrest]. split; [|done].
      intros _. by exists "", rest.
    + rewrite IH. split.
      * intros [before [after ->]]. by exists (String c before), after.
      * intros [before [after Heq]]. destruct before as [|d before].
        -- simpl in Heq.
           assert (String.prefix sub (String c s) = true) by (apply prefix_spec; eauto).
           congruence.
        -- injection Heq as _ ->. eauto.
Qed.

Lemma append_cons (x : Ascii.ascii) (a b : string) :
  String x a +:+ b = String x (a +:+ b).
Proof. reflexivity. Qed.

Lemma append_assoc (a b c : string) : (a +:+ b) +:+ c = a +:+ b +:+ c.
Proof. induction a as [|x a IH]; [done|]. by rewrite !append_cons, IH. Qed.

Lemma append_nil_r (s : string) : s +:+ "" = s.
Proof. induction s as [|x s IH]; [done|]. by rewrite append_cons, IH. Qed.

Lemma includes_end (before s : string) : includes (before +:+ s) s = true.
Proof. apply includes_spec. exists before, "". by rewrite append_nil_r. Qed.

Lemma includes_middle (before s after : string) :
  includes (before +:+ s +:+ after) s = true.
Proof. apply includes_spec. eauto. Qed.

(** ** The extension resolver *)

Section ExtensionResolverProperties.
Context `{StringLib}.

Lemma tryModules_missing importFn name type moduleName rest :
  missing importFn moduleName ->
  tryModules importFn name type (moduleName :: rest) =
  (moduleName :: (tryModules importFn name type rest).1,
   (tryModules importFn name type rest).2).
Proof.
  intros [message [Hload Hnf]]. cbn [tryModules]. rewrite Hload.
  unfold isNotFound in Hnf. apply orb_true_iff in Hnf.
  destruct (tryModules importFn name type rest) as [tried r].
  destruct Hnf as [-> | ->]; cbn [negb andb fst snd]; [done|]. by rewrite andb_false_r.
Qed.

Lemma tryModules_skip importFn name type before rest :
  Forall (missing importFn) before ->
  tryModules importFn name type (before ++ rest) =
  (before ++ (tryModules importFn name type rest).1,
   (tryModules importFn name type rest).2).
Proof.
  induction 1 as [|m before Hm _ IH].
  - cbn [app]. by destruct (tryModules importFn name type rest).
  - rewrite <- app_comm_cons, (tryModules_missing _ _ _ _ _ Hm), IH. done.
Qed.

Lemma tryModules_loaded importFn name type moduleName rest exported :
  importFn moduleName = Exports exported ->
  tryModules importFn name type (moduleName :: rest) =
  ([moduleName], Ok (pickExport exported)).
Proof. intros Hload. cbn [tryModules]. by rewrite Hload. Qed.

Lemma tryModules_fatal importFn name type moduleName rest message :
  importFn moduleName = LoadError message ->
  isNotFound moduleName message = false ->
  tryModules importFn name type (moduleName :: rest) =
  ([moduleName],
   Throw ("Unable to load " +:+ type +:+ " matching " +:+ name +:+ ": " +:+ message)).
Proof.
  intros Hload Hnf. cbn [tryModules]. rewrite Hload.
  unfold isNotFound in Hnf. apply orb_false_iff in Hnf as [-> ->]. done.
Qed.

(** C2. The candidate list is, in this order, the seven spellings built
    from the param-cased name and category, then the raw name exactly
    when it contains a dash, then the name resolved against the working
    directory, which is therefore the last candidate. *)
Theorem possibleModules_candidates (name type : string) :
  possibleModules name type =
    [ "@graphql-mesh/" +:+ paramCase name;
      "@graphql-mesh/" +:+ paramCase name +:+ "-" +:+ paramCase type;
      "@graphql-mesh/" +:+ paramCase type +:+ "-" +:+ paramCase name;
      paramCase name;
      paramCase name +:+ "-" +:+ paramCase type;
      paramCase type +:+ "-" +:+ paramCase name;
      paramCase type ]
    ++ (if includes name "-" then [name] else [])
    ++ [path_resolve cwd name]
  /\ (includes name "-" = true <-> exists before after, name = before +:+ "-" +:+ after)
  /\ last (possibleModules name type) = Some (path_resolve cwd name)
  /\ forall importFn,
       getPackage name type importFn
       = tryModules importFn name type (possibleModules name type).
Proof.
  split; [|split; [|split]].
  - unfold possibleModules, possibleNames. by destruct (includes name "-").
  - apply includes_spec.
  - unfold possibleModules. by rewrite last_snoc.
  - done.
Qed.

(** C3. The candidates are tried in order up to the first one that does
    not fail with a missing-module message: every earlier failure is
    swallowed, a module that loads is returned at once, and any other
    failure stops the search with an error built from the category, the
    requested name and the loader's message. *)
Theorem getPackage_first_settled (name type : string) (importFn : ImportFn)
    (before : list string) (moduleName : string) (after : list string) :
  possibleModules name type = before ++ moduleName :: after ->
  Forall (missing importFn) before ->
  (forall exported,
      importFn moduleName = Exports exported ->
      getPackage name type importFn
      = (before ++ [moduleName], Ok (pickExport exported)))
  /\ (forall message,
      importFn moduleName = LoadError message ->
      isNotFound moduleName message = false ->
      let wrapped :=
        "Unable to load " +:+ type +:+ " matching " +:+ name +:+ ": " +:+ message in
      getPackage name type importFn = (before ++ [moduleName], Throw wrapped)
      /\ includes wrapped type = true
      /\ includes wrapped name = true).
Proof.
  intros Hlist Hbefore. unfold getPackage. rewrite Hlist.
  rewrite (tryModules_skip _ _ _ _ _ Hbefore). split.
  - intros exported Hload. by rewrite (tryModules_loaded _ _ _ _ _ _ Hload).
  - intros message Hload Hnf.
    rewrite (tryModules_fatal _ _ _ _ _ _ Hload Hnf). split; [done|]. split.
    + apply includes_middle.
    + rewrite <- (append_assoc type), <- (append_assoc "Unable to load ").
      apply includes_middle.
Qed.

(** C8. When every candidate fails with a missing-module message, all
    of them have been tried, in order, and the search ends with the
    error "Unable to find <category> matching <name>", which names the
    category and the name as requested. *)
Theorem getPackage_not_found (name type : string) (importFn : ImportFn) :
  Forall (missing importFn) (possibleModules name type) ->
  let notFound := "Unable to find " +:+ type +:+ " matching " +:+ name in
  getPackage name type importFn = (possibleModules name type, Throw notFound)
  /\ includes notFound type = true
  /\ includes notFound name = true.
Proof.
  intros Hall notFound. unfold getPackage. split; [|split].
  - rewrite <- (app_nil_r (possibleModules name type)) at 1.
    rewrite (tryModules_skip _ _ _ _ _ Hall). cbn [tryModules fst snd].
    by rewrite app_nil_r.
  - apply includes_middle.
  - unfold notFound.
    rewrite <- (append_assoc type), <- (append_assoc "Unable to find ").
    apply includes_end.
Qed.

(** C6, as the code has it. Whatever the category, the value returned
    for the first candidate that loads is the module's default export
    when that is truthy, else its [parser] export when that is truthy,
    else the exports object itself; [getHandler] is this search for the
    category "handler" and [resolveMerger] takes [default] of the
    returned value once more. *)
Theorem getPackage_export_choice (name type : string) (importFn : ImportFn)
    (before : list string) (moduleName : string) (after : list string)
    (exported : list (string * value)) :
  possibleModules name type = before ++ moduleName :: after ->
  Forall (missing importFn) before ->
  importFn moduleName = Exports exported ->
  let pkg :=
    if truthy (lookup_prop exported "default") then lookup_prop exported "default"
    else if truthy (lookup_prop exported "parser") then lookup_prop exported "parser"
    else VObj PlainObject exported in
  (getPackage name type importFn).2 = Ok pkg
  /\ (type = "handler" -> (getHandler name importFn).2 = Ok pkg)
  /\ (type = "merger" -> name <> "" ->
      (resolveMerger (Some name) importFn).2
      = Ok (if truthy (prop pkg "default") then prop pkg "default" else pkg)).
Proof.
  intros Hlist Hbefore Hload pkg.
  assert (Hpkg : getPackage name type importFn = (before ++ [moduleName], Ok pkg)).
  { unfold getPackage. rewrite Hlist, (tryModules_skip _ _ _ _ _ Hbefore).
    rewrite (tryModules_loaded _ _ _ _ _ _ Hload). cbn [fst snd].
    unfold pickExport, js_or, pkg.
    destruct (truthy (lookup_prop exported "default")) eqn:Hdefault; [|done].
    by rewrite Hdefault. }
  split; [by rewrite Hpkg|]. split.
  - intros ->. unfold getHandler. by rewrite Hpkg.
  - intros -> Hname. unfold resolveMerger.
    apply String.eqb_neq in Hname. rewrite Hname. cbn [negb].
    by rewrite Hpkg.
Qed.

End ExtensionResolverProperties.

Section ExtensionResolverExamples.
Import Examples.

Example possibleModules_mysql :
  possibleModules "mysql" "handler" =
  [ "@graphql-mesh/mysql"; "@graphql-mesh/mysql-handler"; "@graphql-mesh/handler-mysql";
    "mysql"; "mysql-handler"; "handler-mysql"; "handler"; "/app/mysql" ].
Proof. reflexivity. Qed.

Example possibleModules_json_schema :
  possibleModules "json-schema" "handler" =
  [ "@graphql-mesh/json-schema"; "@graphql-mesh/json-schema-handler";
    "@graphql-mesh/handler-json-schema"; "json-schema"; "json-schema-handler";
    "handler-json-schema"; "handler"; "json-schema"; "/app/json-schema" ].
Proof. reflexivity. Qed.

(** The second spelling loads; and a syntax error in the second
    spelling stops the search there. *)
Lemma getPackage_first_settled_witness :
  getPackage "mysql" "handler"
    (onlyModule "@graphql-mesh/mysql-handler" [("default", VFun "MySQLHandler")])
  = (["@graphql-mesh/mysql"; "@graphql-mesh/mysql-handler"], Ok (VFun "MySQLHandler"))
  /\ getPackage "mysql" "handler"
       (brokenModule "@graphql-mesh/mysql-handler" "Unexpected token")
     = (["@graphql-mesh/mysql"; "@graphql-mesh/mysql-handler"],
        Throw "Unable to load handler matching mysql: Unexpected token").
Proof.
  split.
  - apply (proj1 (@getPackage_first_settled dashedNames "mysql" "handler"
                    (onlyModule "@graphql-mesh/mysql-handler"
                       [("default", VFun "MySQLHandler")])
                    ["@graphql-mesh/mysql"] "@graphql-mesh/mysql-handler"
                    [ "@graphql-mesh/handler-mysql"; "mysql"; "mysql-handler";
                      "handler-mysql"; "handler"; "/app/mysql" ]
                    eq_refl
                    ltac:(repeat constructor; eexists; split; reflexivity))
                 [("default", VFun "MySQLHandler")] eq_refl).
  - apply (proj2 (@getPackage_first_settled dashedNames "mysql" "handler"
                    (brokenModule "@graphql-mesh/mysql-handler" "Unexpected token")
                    ["@graphql-mesh/mysql"] "@graphql-mesh/mysql-handler"
                    [ "@graphql-mesh/handler-mysql"; "mysql"; "mysql-handler";
                      "handler-mysql"; "handler"; "/app/mysql" ]
                    eq_refl
                    ltac:(repeat constructor; eexists; split; reflexivity))
                 "Unexpected token" eq_refl eq_refl).
Defined.

Lemma getPackage_not_found_witness :
  getPackage "redis" "cache" (failing (fun _ => "Could not locate module"))
  = ([ "@graphql-mesh/redis"; "@graphql-mesh/redis-cache"; "@graphql-mesh/cache-redis";
       "redis"; "redis-cache"; "cache-redis"; "cache"; "/app/redis" ],
     Throw "Unable to find cache matching redis").
Proof.
  apply (@getPackage_not_found dashedNames "redis" "cache" (failing (fun _ => "Could not locate module"))).
  repeat constructor; eexists; split; reflexivity.
Defined.

Lemma getPackage_export_choice_witness :
  (getPackage "mysql" "handler"
     (onlyModule "@graphql-mesh/mysql-handler" [("parser", VFun "parse")])).2
  = Ok (VFun "parse").
Proof.
  exact (proj1 (@getPackage_export_choice dashedNames "mysql" "handler"
           (onlyModule "@graphql-mesh/mysql-handler" [("parser", VFun "parse")])
           ["@graphql-mesh/mysql"] "@graphql-mesh/mysql-handler"
           [ "@graphql-mesh/handler-mysql"; "mysql"; "mysql-handler";
             "handler-mysql"; "handler"; "/app/mysql" ]
           [("parser", VFun "parse")]
           eq_refl
           ltac:(repeat constructor; eexists; split; reflexivity)
           eq_refl)).
Defined.

(** A cache module and a merger module without a default export and
    with an export named [parser]: the search returns [parser], not the
    exports object, although the category is not "handler". *)
Lemma getPackage_parser_not_handler_only :
  (getPackage "redis" "cache"
     (onlyModule "@graphql-mesh/redis" [("parser", VFun "parse")])).2
  = Ok (VFun "parse")
  /\ (resolveMerger (Some "federation")
        (onlyModule "@graphql-mesh/federation" [("parser", VFun "parse")])).2
     = Ok (VFun "parse")
  /\ VFun "parse"
     <> js_or (lookup_prop [("parser", VFun "parse")] "default")
              (VObj PlainObject [("parser", VFun "parse")]).
Proof. split; [reflexivity|]. split; [reflexivity|]. discriminate. Qed.

End ExtensionResolverExamples.

(** ** The return-data extractor *)

Section ReturnDataProperties.
Context `{ObjectLib} `{Delegate}.

Lemma extracted_source (source : value) (returnData : option string) :
  pathGiven returnData = false \/ instanceofError source = true ->
  extracted source returnData = source.
Proof.
  unfold extracted. intros [-> | ->]; [|done].
  by rewrite orb_true_r.
Qed.

Lemma extracted_get (source : value) (path : string) :
  instanceofError source = false -> path <> "" ->
  extracted source (Some path) = get source path.
Proof.
  intros Herr Hpath. unfold extracted, pathGiven.
  apply String.eqb_neq in Hpath. by rewrite Herr, Hpath.
Qed.

Lemma isExternalObject_Ok (data : value) :
  nullish data = false -> isExternalObject data = Ok (externalTag data).
Proof. intros Hdata. unfold isExternalObject. by rewrite Hdata. Qed.

Lemma isExternalObject_Throw (data : value) :
  nullish data = true -> isExternalObject data = Throw (nullishTypeError data).
Proof. intros Hdata. unfold isExternalObject. by rewrite Hdata. Qed.

Lemma isGraphQLError_not_nullish (v : value) :
  isGraphQLError v = true -> nullish v = false.
Proof. by destruct v. Qed.

(** The older revision is the newer one called without trailing
    arguments. *)
Lemma resolveReturnData_revisions source returnData context info :
  Base.resolveReturnData source returnData context info
  = Extended.resolveReturnData source returnData context info [].
Proof. reflexivity. Qed.

(** C7, as the code has it. With no extraction path, or with a source
    that is an [Error], nothing is looked up: a source that is neither
    [null] nor [undefined] and not a [GraphQLError] comes back unchanged,
    and a [GraphQLError] comes back as its [originalError]. *)
Theorem resolveReturnData_identity (source : value) (returnData : option string)
    (context : Context) (info : GraphQLResolveInfo) (rest : list extra) :
  pathGiven returnData = false \/ instanceofError source = true ->
  (isGraphQLError source = false -> nullish source = false ->
     Extended.resolveReturnData source returnData context info rest = Ok source
     /\ Base.resolveReturnData source returnData context info = Ok source)
  /\ (isGraphQLError source = true ->
     Extended.resolveReturnData source returnData context info rest
     = Ok (prop source "originalError")
     /\ Base.resolveReturnData source returnData context info
        = Ok (prop source "originalError")).
Proof.
  intros Hsame. unfold Extended.resolveReturnData, Base.resolveReturnData.
  rewrite (extracted_source _ _ Hsame). split.
  - intros -> Hsource. rewrite (isExternalObject_Ok _ Hsource).
    by destruct (externalTag source).
  - by intros ->.
Qed.

(** C1, as the code has it. With a source that is not an [Error] and a
    path, the value found at the path is looked at. A [GraphQLError] is
    replaced by its [originalError]. Any other value that is neither
    [null] nor [undefined], found in a source that is neither, is
    returned as it is if it is external or if the source is not external,
    and otherwise it is re-resolved by [resolveExternalValue] with the
    unpathed errors of the source, the subschema of the source for the
    response key of [info], the context and [info], followed in the newer
    revision by the trailing arguments the extractor was called with. *)
Theorem resolveReturnData_extracted (source : value) (path : string)
    (context : Context) (info : GraphQLResolveInfo) (rest : list extra) :
  instanceofError source = false ->
  path <> "" ->
  let result := get source path in
  (isGraphQLError result = true ->
     Extended.resolveReturnData source (Some path) context info rest
     = Ok (prop result "originalError")
     /\ Base.resolveReturnData source (Some path) context info
        = Ok (prop result "originalError"))
  /\ (isGraphQLError result = false ->
      nullish result = false -> nullish source = false ->
      externalTag result = true \/ externalTag source = false ->
      Extended.resolveReturnData source (Some path) context info rest = Ok result
      /\ Base.resolveReturnData source (Some path) context info = Ok result)
  /\ (isGraphQLError result = false ->
      nullish result = false -> nullish source = false ->
      externalTag result = false -> externalTag source = true ->
      Extended.resolveReturnData source (Some path) context info rest
      = Ok (resolveExternalValue result (getUnpathedErrors source)
              (getSubschema source (getResponseKeyFromInfo info)) context info rest)
      /\ Base.resolveReturnData source (Some path) context info
         = Ok (resolveExternalValue result (getUnpathedErrors source)
                 (getSubschema source (getResponseKeyFromInfo info)) context info [])).
Proof.
  intros Herr Hpath result.
  unfold Extended.resolveReturnData, Base.resolveReturnData.
  rewrite (extracted_get _ _ Herr Hpath). fold result. split; [|split].
  - by intros ->.
  - intros -> Hresult Hsource Htags.
    rewrite (isExternalObject_Ok _ Hresult), (isExternalObject_Ok _ Hsource).
    destruct Htags as [-> | ->]; [done|]. by destruct (externalTag result).
  - intros -> Hresult Hsource Htag Htag'.
    by rewrite (isExternalObject_Ok _ Hresult), (isExternalObject_Ok _ Hsource),
      Htag, Htag'.
Qed.

(** What the guard for GraphQL errors does to the value found at the
    path. *)
Lemma resolveReturnData_unwraps (source : value) (path : string)
    (context : Context) (info : GraphQLResolveInfo) (rest : list extra) :
  instanceofError source = false ->
  path <> "" ->
  isGraphQLError (get source path) = true ->
  Extended.resolveReturnData source (Some path) context info rest
  = Ok (prop (get source path) "originalError").
Proof.
  intros Herr Hpath Hgql. unfold Extended.resolveReturnData.
  by rewrite (extracted_get _ _ Herr Hpath), Hgql.
Qed.

(** A value found at the path that is [null] or [undefined] makes the
    extractor throw, in [isExternalObject]. *)
Lemma resolveReturnData_nullish (source : value) (returnData : option string)
    (context : Context) (info : GraphQLResolveInfo) (rest : list extra) :
  nullish (extracted source returnData) = true ->
  Extended.resolveReturnData source returnData context info rest
  = Throw (nullishTypeError (extracted source returnData))
  /\ Base.resolveReturnData source returnData context info
     = Throw (nullishTypeError (extracted source returnData)).
Proof.
  intros Hnullish. unfold Extended.resolveReturnData, Base.resolveReturnData.
  rewrite (isExternalObject_Throw _ Hnullish).
  by destruct (extracted source returnData).
Qed.

End ReturnDataProperties.

Section ReturnDataExamples.
Import Examples.

Lemma resolveReturnData_identity_witness :
  Extended.resolveReturnData (external [("id", VNum 1)]) None backend someInfo []
  = Ok (external [("id", VNum 1)])
  /\ Base.resolveReturnData cause (Some "id") backend someInfo = Ok cause.
Proof.
  split.
  - apply (proj1 (@resolveReturnData_identity singleKeys tagged
             (external [("id", VNum 1)]) None backend someInfo []
             (or_introl eq_refl)) eq_refl eq_refl).
  - apply (proj1 (@resolveReturnData_identity singleKeys tagged
             cause (Some "id") backend someInfo []
             (or_intror eq_refl)) eq_refl eq_refl).
Defined.

(** A [GraphQLError] handed over without a path does not come back
    itself, and [null] handed over without a path does not come back at
    all. *)
Lemma resolveReturnData_identity_fails :
  instanceofError wrapper = true
  /\ Extended.resolveReturnData wrapper None backend someInfo [] = Ok cause
  /\ Base.resolveReturnData wrapper None backend someInfo = Ok cause
  /\ cause <> wrapper
  /\ Extended.resolveReturnData VNull None backend someInfo []
     = Throw "Cannot read properties of null"
  /\ Base.resolveReturnData VNull None backend someInfo
     = Throw "Cannot read properties of null".
Proof. repeat split; discriminate. Qed.

Lemma resolveReturnData_extracted_witness :
  Extended.resolveReturnData (external [("book", VObj PlainObject [("id", VNum 1)])])
    (Some "book") backend someInfo [ReturnType (Some (NamedType "Book"))]
  = Ok (VObj PlainObject
          [("data", VObj PlainObject [("id", VNum 1)]); (UNPATHED_ERRORS, VArr []);
           ("subschema", VStr "books"); ("extras", VNum 1)])
  /\ Base.resolveReturnData (VObj PlainObject [("book", VNum 7)])
       (Some "book") backend someInfo
     = Ok (VNum 7).
Proof.
  split.
  - apply (proj2 (proj2 (@resolveReturnData_extracted singleKeys tagged
             (external [("book", VObj PlainObject [("id", VNum 1)])]) "book"
             backend someInfo [ReturnType (Some (NamedType "Book"))]
             eq_refl ltac:(discriminate))) eq_refl eq_refl eq_refl eq_refl eq_refl).
  - apply (proj1 (proj2 (@resolveReturnData_extracted singleKeys tagged
             (VObj PlainObject [("book", VNum 7)]) "book"
             backend someInfo []
             eq_refl ltac:(discriminate))) eq_refl eq_refl eq_refl (or_intror eq_refl)).
Defined.

(** The source is a plain object, not an [Error] and not external, and
    a path is given. When the value at the path is a [GraphQLError], what
    comes back is its cause, not the value at the path; when nothing is
    found at the path, nothing comes back: the extractor throws. *)
Lemma resolveReturnData_extracted_not_as_is :
  instanceofError shelf = false
  /\ isExternalObject shelf = Ok false
  /\ get shelf "book" = wrapper
  /\ Extended.resolveReturnData shelf (Some "book") backend someInfo [] = Ok cause
  /\ Base.resolveReturnData shelf (Some "book") backend someInfo = Ok cause
  /\ cause <> wrapper
  /\ get shelf "title" = VUndefined
  /\ Extended.resolveReturnData shelf (Some "title") backend someInfo []
     = Throw "Cannot read properties of undefined"
  /\ Base.resolveReturnData shelf (Some "title") backend someInfo
     = Throw "Cannot read properties of undefined".
Proof. repeat split; discriminate. Qed.

End ReturnDataExamples.

(** ** Promises *)

Section PromiseProperties.
Context {A : Type}.
Implicit Types (values : list A) (order : list nat) (slots : list (option A)).

Lemma settle_fulfilled values order slots :
  exists slots',
    settle (Fulfilled <$> values) order slots = Fulfilled slots'
    /\ length slots' = length slots
    /\ forall j,
         slots' !! j =
         if decide (j ∈ order /\ j < length values /\ j < length slots)
         then Some (values !! j) else slots !! j.
Proof.
  revert slots. induction order as [|i order IH]; intros slots; cbn [settle].
  - exists slots. split; [done|]. split; [done|]. intros j.
    case_decide as Hj; [|done]. destruct Hj as [Hj _]. by apply elem_of_nil in Hj.
  - rewrite list_lookup_fmap. destruct (values !! i) as [a|] eqn:Hi; cbn [fmap option_fmap option_map].
    + destruct (IH (<[i := Some a]> slots)) as (slots' & Hsettle & Hlen & Hlookup).
      exists slots'. split; [done|]. rewrite length_insert in Hlen. split; [done|].
      intros j. rewrite Hlookup, length_insert.
      apply lookup_lt_Some in Hi as Hlt.
      destruct (decide (j = i)) as [->|Hne].
      * rewrite Hi. destruct (decide (i < length slots)) as [Hs|Hs].
        -- rewrite list_lookup_insert_eq by done.
           rewrite (decide_True (P := i ∈ i :: order ∧ _)); [by case_decide|].
           split; [left | done].
        -- rewrite list_insert_ge by lia.
           rewrite !decide_False; [done | tauto | tauto].
      * rewrite list_lookup_insert_ne by done.
        apply decide_ext. rewrite elem_of_cons. tauto.
    + destruct (IH slots) as (slots' & Hsettle & Hlen & Hlookup).
      exists slots'. split; [done|]. split; [done|].
      intros j. rewrite Hlookup. apply lookup_ge_None in Hi.
      apply decide_ext. rewrite elem_of_cons. split; [tauto|].
      intros [[->|Hj] [Hv Hs]]; [lia | done].
Qed.

(** When every promise fulfils, [Promise.all] fulfils with the values
    in the order of the promises, whatever the order of completion. *)
Lemma promise_all_fulfilled values order :
  order ≡ₚ seq 0 (length values) ->
  promise_all (Fulfilled <$> values) order = Some (Fulfilled values).
Proof.
  intros Horder. unfold promise_all. rewrite length_fmap.
  destruct (settle_fulfilled values order (replicate (length values) None))
    as (slots' & -> & Hlen & Hlookup).
  rewrite length_replicate in Hlen.
  assert (slots' = Some <$> values) as ->.
  { apply list_eq. intros j. rewrite Hlookup, length_replicate, list_lookup_fmap.
    destruct (decide (j < length values)) as [Hj|Hj].
    - rewrite decide_True.
      + by destruct (lookup_lt_is_Some_2 values j Hj) as [a ->].
      + split; [|done]. rewrite Horder. apply elem_of_seq. lia.
    - rewrite decide_False by tauto.
      rewrite (proj1 (lookup_replicate_None _ _ _)), lookup_ge_None_2; [done | lia | lia]. }
  by rewrite mapM_fmap_Some.
Qed.

(** A rejection among the promises that settle rejects the whole, with
    the message of one of the rejected promises: the first to settle. *)
Lemma settle_rejected (promises : list (outcome A)) order slots i message :
  i ∈ order ->
  promises !! i = Some (Rejected message) ->
  exists message',
    settle promises order slots = Rejected message'
    /\ Rejected message' ∈ promises.
Proof.
  revert slots. induction order as [|j order IH]; intros slots Hi Hrejected.
  - by apply elem_of_nil in Hi.
  - cbn [settle]. destruct (promises !! j) as [[a|message']|] eqn:Hj.
    + apply elem_of_cons in Hi as [->|Hi]; [congruence | by apply IH].
    + exists message'. split; [done|]. by apply list_elem_of_lookup_2 in Hj.
    + apply elem_of_cons in Hi as [->|Hi]; [congruence | by apply IH].
Qed.

Lemma promise_all_rejected (promises : list (outcome A)) order i message :
  order ≡ₚ seq 0 (length promises) ->
  promises !! i = Some (Rejected message) ->
  exists message',
    promise_all promises order = Some (Rejected message')
    /\ Rejected message' ∈ promises.
Proof.
  intros Horder Hi. unfold promise_all.
  destruct (settle_rejected promises order (replicate (length promises) None) i message)
    as (message' & -> & Hin); [|done|by exists message'].
  rewrite Horder. apply elem_of_seq. apply lookup_lt_Some in Hi. lia.
Qed.

(** [Promise.all] of no promise at all fulfils at once. *)
Lemma promise_all_empty : promise_all (A := A) [] [] = Some (Fulfilled []).
Proof. reflexivity. Qed.

End PromiseProperties.

(** ** The resolver of a stitching descriptor *)

Section StitchingProperties.
Context `{ObjectLib} `{Delegate}.

Lemma completions_ReturnData (continuations : list (list event)) (order : list nat) :
  Forall (Forall (fun e => exists result, e = ReturnData result)) continuations ->
  Forall (fun e => exists result, e = ReturnData result) (completions continuations order).
Proof.
  intros Hall. unfold completions. induction order as [|i order IH]; [constructor|].
  cbn [flat_map]. apply Forall_app. split; [|done].
  destruct (continuations !! i) as [events|] eqn:Hi; [|constructor].
  apply (Forall_lookup_1 _ _ _ _ Hall Hi).
Qed.

Lemma afterCall_fulfilled returnData context info returnType result :
  Extended.afterCall returnData context info returnType (Fulfilled result)
  = (if instanceofError result then [] else [ReturnData result],
     if instanceofError result then Fulfilled VNull
     else promiseOf (Extended.resolveReturnData result returnData context info
                       [ReturnType returnType])).
Proof. unfold Extended.afterCall. by destruct (instanceofError result). Qed.

(** C4, as the code has it. When the interpolated argument is an array,
    the backend answers every element and the extractor returns for every
    answer that is not an [Error], the resolver issues one backend call
    per element, in the order of the elements and before anything else,
    and fulfils with an array that has one entry per element, in the
    order of the elements, for every order in which the calls complete:
    at a position whose answer is an [Error] the entry is [null], and at
    any other position it is what the extractor returns for that
    answer. *)
Theorem stitchingResolve_fan_out (additionalResolver : Stitching.t)
    (root args : value) (context : Context) (info : GraphQLResolveInfo)
    (items results : list value) (order : list nat) :
  let resolverData :=
    {| root := root; args := args; context := context; info := info |} in
  let options :=
    {| selectedFields := Stitching.resultSelectedFields additionalResolver;
       selectionSet := Stitching.resultSelectionSet additionalResolver;
       depth := Stitching.resultDepth additionalResolver |} in
  let source := Stitching.targetSource additionalResolver in
  let method := Stitching.targetMethod additionalResolver in
  let extract := fun result =>
    Extended.resolveReturnData result (Stitching.returnData additionalResolver)
      context info [ReturnType (ofType (getNullableType (returnType info)))] in
  Extended.normalizeMethodArgs (Stitching.args additionalResolver) resolverData
  = VArr items ->
  Forall2 (fun item result => api context source method item options = Fulfilled result)
    items results ->
  Forall (fun result =>
            instanceofError result = false -> exists v, extract result = Ok v)
    results ->
  order ≡ₚ seq 0 (length items) ->
  exists later output,
    Extended.stitchingResolve additionalResolver root args context info order
    = (((fun item => ApiCall source method item options) <$> items) ++ later,
       Some (Fulfilled (VArr output)))
    /\ Forall (fun e => exists result, e = ReturnData result) later
    /\ length output = length items
    /\ forall i result,
         results !! i = Some result ->
         if instanceofError result then output !! i = Some VNull
         else Ok <$> output !! i = Some (extract result).
Proof.
  intros resolverData options source method extract Hargs Hcalls Haccepted Horder.
  set (post := fun result =>
         if instanceofError result then VNull
         else match extract result with Ok v => v | Throw _ => VUndefined end).
  set (promises :=
         (fun item =>
            Extended.afterCall (Stitching.returnData additionalResolver) context info
              (ofType (getNullableType (returnType info)))
              (api context source method item options)) <$> items).
  assert (Hsnd : snd <$> promises = Fulfilled <$> (post <$> results)).
  { unfold promises. clear Horder Hargs.
    induction Hcalls as [|item result items results Hcall _ IH]; [done|].
    apply Forall_cons in Haccepted as [Hresult Haccepted].
    rewrite !fmap_cons, (IH Haccepted), Hcall, afterCall_fulfilled.
    cbn [snd]. f_equal. unfold post.
    destruct (instanceofError result); [done|].
    destruct (Hresult eq_refl) as [v Hv]. fold (extract result). by rewrite Hv. }
  assert (Hfst : Forall (Forall (fun e => exists result, e = ReturnData result))
                   (fst <$> promises)).
  { unfold promises. clear Horder Hargs Hsnd Haccepted.
    induction Hcalls as [|item result items results Hcall _ IH]; [constructor|].
    rewrite !fmap_cons, Hcall, afterCall_fulfilled. constructor; [|done].
    cbn [fst]. destruct (instanceofError result); repeat constructor. eauto. }
  exists (completions (fst <$> promises) order), (post <$> results).
  split; [|split; [|split]].
  - unfold Extended.stitchingResolve. fold resolverData. rewrite Hargs.
    cbn [isArray castArray]. fold options source method promises.
    rewrite Hsnd, promise_all_fulfilled; [done|].
    by rewrite length_fmap, <- (Forall2_length _ _ _ Hcalls).
  - by apply completions_ReturnData.
  - by rewrite length_fmap, <- (Forall2_length _ _ _ Hcalls).
  - intros i result Hi. rewrite list_lookup_fmap, Hi. cbn. unfold post.
    destruct (instanceofError result) eqn:Herror; [done|].
    pose proof (Forall_lookup_1 _ _ _ _ Haccepted Hi Herror) as [v Hv].
    by rewrite Hv.
Qed.

(** C10. In the newer revision, when the interpolated argument is not
    an array and the backend answers with an [Error], the resolver
    fulfils with [null]: the only thing it did was the one backend
    call, and the extractor was not called. *)
Theorem stitchingResolve_scalar_Error (additionalResolver : Stitching.t)
    (root args : value) (context : Context) (info : GraphQLResolveInfo)
    (error : value) (order : list nat) :
  let resolverData :=
    {| root := root; args := args; context := context; info := info |} in
  let methodArgs :=
    Extended.normalizeMethodArgs (Stitching.args additionalResolver) resolverData in
  let options :=
    {| selectedFields := Stitching.resultSelectedFields additionalResolver;
       selectionSet := Stitching.resultSelectionSet additionalResolver;
       depth := Stitching.resultDepth additionalResolver |} in
  let source := Stitching.targetSource additionalResolver in
  let method := Stitching.targetMethod additionalResolver in
  isArray methodArgs = false ->
  api context source method methodArgs options = Fulfilled error ->
  instanceofError error = true ->
  order ≡ₚ seq 0 1 ->
  Extended.stitchingResolve additionalResolver root args context info order
  = ([ApiCall source method methodArgs options], Some (Fulfilled VNull)).
Proof.
  intros resolverData methodArgs options source method Hscalar Hcall Herror Horder.
  apply Permutation_singleton_r in Horder as ->.
  unfold Extended.stitchingResolve.
  fold resolverData. fold methodArgs. fold options. fold source. fold method.
  rewrite Hscalar.
  assert (castArray methodArgs = [methodArgs]) as ->
    by (by destruct methodArgs).
  cbn [fmap list_fmap]. rewrite Hcall. cbn [Extended.afterCall].
  rewrite Herror. reflexivity.
Qed.

(** X13. In the older revision an [Error] that the backend answers with
    is handed to the extractor like any other answer, and unless it is a
    [GraphQLError] it comes back as the value of the field: the resolver
    fulfils with the [Error] itself. *)
Lemma Base_stitchingResolve_Error (additionalResolver : Stitching.t)
    (root args : value) (context : Context) (info : GraphQLResolveInfo)
    (templates : list (string * string)) (error : value) (order : list nat) :
  let resolverData :=
    {| root := root; args := args; context := context; info := info |} in
  let methodArgs := interpolateArgs templates resolverData in
  let options :=
    {| selectedFields := Stitching.resultSelectedFields additionalResolver;
       selectionSet := Stitching.resultSelectionSet additionalResolver;
       depth := Stitching.resultDepth additionalResolver |} in
  let source := Stitching.targetSource additionalResolver in
  let method := Stitching.targetMethod additionalResolver in
  Stitching.args additionalResolver = ArgsMapping templates ->
  api context source method methodArgs options = Fulfilled error ->
  instanceofError error = true ->
  isGraphQLError error = false ->
  Base.stitchingResolve additionalResolver root args context info order
  = ([ApiCall source method methodArgs options; ReturnData error],
     Some (Fulfilled error)).
Proof.
  intros resolverData methodArgs options source method Hargs Hcall Herror Hgql.
  unfold Base.stitchingResolve. rewrite Hargs.
  fold resolverData. fold methodArgs. fold options. fold source. fold method.
  rewrite Hcall. do 2 f_equal.
  unfold Base.resolveReturnData.
  rewrite extracted_source by (by right). rewrite Hgql.
  rewrite isExternalObject_Ok by (by destruct error).
  by destruct (externalTag error).
Qed.

End StitchingProperties.

Section StitchingExamples.
Import Examples MoreExamples.

Example stitchingResolve_three :
  Extended.stitchingResolve (forward "Query" "books" (Some "id")) VNull
    (VArr [VNum 1; VStr "gone"; VNum 3]) backend someInfo [2; 0; 1]
  = ([ ApiCall "Library" "book" (VNum 1) noOptions;
       ApiCall "Library" "book" (VStr "gone") noOptions;
       ApiCall "Library" "book" (VNum 3) noOptions;
       ReturnData (VObj PlainObject [("id", VNum 3)]);
       ReturnData (VObj PlainObject [("id", VNum 1)]) ],
     Some (Fulfilled (VArr [VNum 1; VNull; VNum 3]))).
Proof. reflexivity. Qed.

(** As long as a call is still out, so is the resolver. *)
Example stitchingResolve_pending :
  (Extended.stitchingResolve (forward "Query" "books" (Some "id")) VNull
     (VArr [VNum 1; VStr "gone"; VNum 3]) backend someInfo [2; 0]).2
  = None.
Proof. reflexivity. Qed.

(** A call that rejects rejects the field. *)
Example stitchingResolve_rejected :
  (Extended.stitchingResolve (forward "Query" "books" (Some "id")) VNull
     (VArr [VNum 1; VNull; VNum 3]) backend someInfo [2; 0; 1]).2
  = Some (Rejected "bad request").
Proof. reflexivity. Qed.

Lemma stitchingResolve_fan_out_witness :
  exists later output,
    Extended.stitchingResolve (forward "Query" "books" (Some "id")) VNull
      (VArr [VNum 1; VStr "gone"; VNum 3]) backend someInfo [2; 0; 1]
    = ([ ApiCall "Library" "book" (VNum 1) noOptions;
         ApiCall "Library" "book" (VStr "gone") noOptions;
         ApiCall "Library" "book" (VNum 3) noOptions ] ++ later,
       Some (Fulfilled (VArr output)))
    /\ length output = 3
    /\ output !! 1 = Some VNull.
Proof.
  destruct (@stitchingResolve_fan_out singleKeys tagged
              (forward "Query" "books" (Some "id")) VNull
              (VArr [VNum 1; VStr "gone"; VNum 3]) backend someInfo
              [VNum 1; VStr "gone"; VNum 3]
              [ VObj PlainObject [("id", VNum 1)];
                VObj ErrorClass [("message", VStr "gone")];
                VObj PlainObject [("id", VNum 3)] ]
              [2; 0; 1]
              eq_refl
              ltac:(repeat constructor)
              ltac:(repeat constructor; intros _; eexists; reflexivity)
              ltac:(by apply (bool_decide_unpack _)))
    as (later & output & Hrun & _ & Hlength & Hat).
  exists later, output. split; [exact Hrun|]. split; [exact Hlength|].
  exact (Hat 1 _ eq_refl).
Defined.

(** An array argument does not always give an array: a call that
    rejects rejects the field, and so does an answer the extractor throws
    on, here [null]. *)
Lemma stitchingResolve_fan_out_no_array :
  Extended.stitchingResolve (forward "Query" "books" (Some "id")) VNull
    (VArr [VNum 1; VNull; VNum 3]) backend someInfo [2; 0; 1]
  = ([ ApiCall "Library" "book" (VNum 1) noOptions;
       ApiCall "Library" "book" VNull noOptions;
       ApiCall "Library" "book" (VNum 3) noOptions;
       ReturnData (VObj PlainObject [("id", VNum 3)]);
       ReturnData (VObj PlainObject [("id", VNum 1)]) ],
     Some (Rejected "bad request"))
  /\ Extended.stitchingResolve (forward "Query" "books" None) VNull
       (VArr [VNum 1; VNum 2]) mute someInfo [0; 1]
     = ([ ApiCall "Library" "book" (VNum 1) noOptions;
          ApiCall "Library" "book" (VNum 2) noOptions;
          ReturnData VNull; ReturnData VNull ],
        Some (Rejected "Cannot read properties of null")).
Proof. split; reflexivity. Qed.

Lemma stitchingResolve_scalar_Error_witness :
  Extended.stitchingResolve (forward "Query" "book" (Some "id")) VNull
    (VStr "gone") backend someInfo [0]
  = ([ApiCall "Library" "book" (VStr "gone") noOptions], Some (Fulfilled VNull)).
Proof.
  apply (@stitchingResolve_scalar_Error singleKeys tagged
           (forward "Query" "book" (Some "id")) VNull (VStr "gone") backend someInfo
           (VObj ErrorClass [("message", VStr "gone")]) [0]
           eq_refl eq_refl eq_refl ltac:(reflexivity)).
Defined.

End StitchingExamples.

(** ** Merging and compiling *)

Section MergeProperties.
Context {R : Type}.
Implicit Types (resolvers : gmap string (gmap string R)).

Lemma entry_mergeTwo resolvers resolvers' type field :
  entry (mergeTwo resolvers resolvers') type field
  = match entry resolvers' type field with
    | Some r => Some r
    | None => entry resolvers type field
    end.
Proof.
  unfold entry, mergeTwo. rewrite lookup_union_with.
  destruct (resolvers !! type) as [fields|], (resolvers' !! type) as [fields'|];
    cbn; try done.
  - rewrite lookup_union. by destruct (fields' !! field), (fields !! field).
  - by destruct (fields' !! field).
Qed.

Lemma entry_merge_silent (after : list (gmap string (gmap string R)))
    resolvers type field :
  Forall (fun later => entry later type field = None) after ->
  entry (foldl mergeTwo resolvers after) type field = entry resolvers type field.
Proof.
  intros Hafter. revert resolvers.
  induction Hafter as [|later after Hlater _ IH]; intros resolvers; [done|].
  cbn [foldl]. by rewrite IH, entry_mergeTwo, Hlater.
Qed.

(** The entry at a key is that of the last definition that has one. *)
Lemma entry_mergeResolvers_last (before after : list (gmap string (gmap string R)))
    resolvers type field r :
  entry resolvers type field = Some r ->
  Forall (fun later => entry later type field = None) after ->
  entry (mergeResolvers (before ++ resolvers :: after)) type field = Some r.
Proof.
  intros Hentry Hafter. unfold mergeResolvers. rewrite foldl_app. cbn [foldl].
  by rewrite (entry_merge_silent _ _ _ _ Hafter), entry_mergeTwo, Hentry.
Qed.

Lemma entry_mergeResolvers_nil type field :
  entry (mergeResolvers (R := R) []) type field = None.
Proof. done. Qed.

End MergeProperties.

Section SynthesizerProperties.
Context `{StringLib} `{ObjectLib}.
Context (resolveReturnData :
           value -> option string -> Context -> GraphQLResolveInfo -> result value).
Context (stitchingResolver : Stitching.t -> FieldResolver).

Abbreviation loadResolvers :=
  (Synthesizer.loadResolvers resolveReturnData stitchingResolver).
Abbreviation contribution :=
  (Synthesizer.contribution resolveReturnData stitchingResolver).
Abbreviation resolveAdditionalResolvers :=
  (Synthesizer.resolveAdditionalResolvers resolveReturnData stitchingResolver).

Lemma contributions_loaded baseDir importFn pubsub
    (additionalResolvers : list AdditionalResolver)
    (loaded : list (gmap string (gmap string FieldResolver))) :
  Forall2 (fun d c => contribution baseDir importFn pubsub d = Fulfilled c)
    additionalResolvers loaded ->
  (fun p => snd (snd p)) <$> (loadResolvers baseDir importFn pubsub <$> additionalResolvers)
  = Fulfilled <$> loaded.
Proof.
  induction 1 as [|d c ds cs Hd _ IH]; [done|].
  rewrite !fmap_cons, IH. f_equal. exact Hd.
Qed.

(** When every descriptor loads, the compilation fulfils with the
    merge of the contributions, in the order of the descriptors. *)
Lemma resolveAdditionalResolvers_fulfilled baseDir importFn pubsub
    (additionalResolvers : list AdditionalResolver)
    (loaded : list (gmap string (gmap string FieldResolver))) (order : list nat) :
  Forall2 (fun d c => contribution baseDir importFn pubsub d = Fulfilled c)
    additionalResolvers loaded ->
  order ≡ₚ seq 0 (length additionalResolvers) ->
  (resolveAdditionalResolvers baseDir (Some additionalResolvers) importFn pubsub order).2
  = Some (Fulfilled (mergeResolvers loaded)).
Proof.
  intros Hloaded Horder. unfold Synthesizer.resolveAdditionalResolvers.
  cbv zeta. cbn [default]. unfold id. rewrite (contributions_loaded _ _ _ _ _ Hloaded).
  rewrite promise_all_fulfilled; [done|].
  by rewrite <- (Forall2_length _ _ _ Hloaded).
Qed.

(** C5. When two descriptors of the list have an entry at the same
    [type][field] key and no descriptor after the later of the two has
    one, the compiled map has the later descriptor's entry at that key,
    whole, whatever the earlier one was. *)
Theorem resolveAdditionalResolvers_last_wins baseDir importFn pubsub
    (l1 : list AdditionalResolver) (earlier : AdditionalResolver)
    (l2 : list AdditionalResolver) (later : AdditionalResolver)
    (l3 : list AdditionalResolver)
    (loaded : list (gmap string (gmap string FieldResolver))) (order : list nat)
    (type field : string) (first second : FieldResolver) :
  let additionalResolvers := l1 ++ earlier :: l2 ++ later :: l3 in
  Forall2 (fun d c => contribution baseDir importFn pubsub d = Fulfilled c)
    additionalResolvers loaded ->
  order ≡ₚ seq 0 (length additionalResolvers) ->
  (exists c, contribution baseDir importFn pubsub earlier = Fulfilled c
             /\ entry c type field = Some first) ->
  (exists c, contribution baseDir importFn pubsub later = Fulfilled c
             /\ entry c type field = Some second) ->
  Forall (fun d => exists c, contribution baseDir importFn pubsub d = Fulfilled c
                             /\ entry c type field = None) l3 ->
  exists resolvers,
    (resolveAdditionalResolvers baseDir (Some additionalResolvers) importFn pubsub order).2
    = Some (Fulfilled resolvers)
    /\ entry resolvers type field = Some second.
Proof.
  intros additionalResolvers Hloaded Horder _ (c & Hlater & Hsecond) Hsilent.
  exists (mergeResolvers loaded). split.
  { by apply resolveAdditionalResolvers_fulfilled. }
  unfold additionalResolvers in Hloaded.
  apply Forall2_app_inv_l in Hloaded as (c1 & rest & _ & Hloaded & ->).
  apply Forall2_cons_inv_l in Hloaded as (ce & rest' & _ & Hloaded & ->).
  apply Forall2_app_inv_l in Hloaded as (c2 & rest & _ & Hloaded & ->).
  apply Forall2_cons_inv_l in Hloaded as (cl & c3 & Hcl & Hloaded & ->).
  rewrite Hlater in Hcl. injection Hcl as <-.
  change (c1 ++ ce :: c2 ++ c :: c3) with (c1 ++ (ce :: c2) ++ c :: c3).
  rewrite app_assoc. apply entry_mergeResolvers_last; [done|].
  clear -Hloaded Hsilent.
  induction Hloaded as [|d c ds cs Hd _ IH]; [constructor|].
  apply Forall_cons in Hsilent as [(c' & Hc' & Hnone) Hsilent].
  constructor; [|by apply IH]. rewrite Hd in Hc'. by injection Hc' as <-.
Qed.

(** C9, as the code has it. A module that loads never fails the
    compilation. Its contribution is the [resolvers] field of its default
    export when both are truthy; else the default export itself when it
    is truthy and an object; when there is no truthy default export, the
    [resolvers] export of the module when that is truthy. In every other
    case, also when a default export that is not an object stands next
    to a [resolvers] export, the contribution is the empty map and a
    warning is written. *)
Theorem loadResolvers_file baseDir importFn pubsub (filePath : string)
    (exported : list (string * value)) :
  importFn (path_resolve baseDir filePath) = Exports exported ->
  let default := lookup_prop exported "default" in
  let warning := Warn ("Unable to load resolvers from file: " +:+ filePath) in
  loadResolvers baseDir importFn pubsub (FilePath filePath)
  = ([ImportModule (path_resolve baseDir filePath)],
     ((fileResolvers filePath exported).1,
      Fulfilled (moduleResolvers (fileResolvers filePath exported).2)))
  /\ (truthy default = true -> truthy (prop default "resolvers") = true ->
      fileResolvers filePath exported = ([], prop default "resolvers"))
  /\ (truthy default = true -> truthy (prop default "resolvers") = false ->
      typeofObject default = true ->
      fileResolvers filePath exported = ([], default))
  /\ (truthy default = true -> truthy (prop default "resolvers") = false ->
      typeofObject default = false ->
      fileResolvers filePath exported = ([warning], VObj PlainObject []))
  /\ (truthy default = false -> truthy (lookup_prop exported "resolvers") = true ->
      fileResolvers filePath exported = ([], lookup_prop exported "resolvers"))
  /\ (truthy default = false -> truthy (lookup_prop exported "resolvers") = false ->
      fileResolvers filePath exported = ([warning], VObj PlainObject [])).
Proof.
  intros Hload default warning. split.
  { unfold Synthesizer.loadResolvers. rewrite Hload.
    by destruct (fileResolvers filePath exported). }
  unfold fileResolvers. fold default.
  repeat split.
  - intros -> Hr. by rewrite !Hr.
  - intros Hd -> ->. by rewrite !Hd.
  - by intros -> -> ->.
  - intros -> Hr. by rewrite !Hr.
  - by intros -> ->.
Qed.

End SynthesizerProperties.

Section SynthesizerExamples.
Import Examples.

Example compile_file_default_resolvers :
  Extended.resolveAdditionalResolvers "/app" (Some [FilePath "resolvers.js"])
    (onlyModule "/app/resolvers.js" [("default", VObj PlainObject [("resolvers", bookResolvers)])])
    (fun topic => topic) [0]
  = ([ImportModule "/app/resolvers.js"],
     Some (Fulfilled {[ "Query" := {[ "books" := ModuleResolver (VFun "books") ]} ]})).
Proof. vm_compute. reflexivity. Qed.

(** A file that does not load fails the compilation, also when the
    other descriptors are fine. *)
Example compile_file_missing :
  Extended.resolveAdditionalResolvers "/app"
    (Some [StitchingObject (forward "Query" "a" None); FilePath "resolvers.js"])
    (failing (fun _ => "Could not locate module")) (fun topic => topic) [0; 1]
  = ([ImportModule "/app/resolvers.js"], Some (Rejected "Could not locate module")).
Proof. reflexivity. Qed.

(** No descriptors, no resolvers. *)
Example compile_nothing :
  Extended.resolveAdditionalResolvers "/app" None
    (failing (fun _ => "Could not locate module")) (fun topic => topic) []
  = ([], Some (Fulfilled ∅)).
Proof. reflexivity. Qed.

Lemma loadResolvers_file_witness :
  fileResolvers "resolvers.js" [("default", VObj PlainObject [("resolvers", bookResolvers)])]
  = ([], bookResolvers)
  /\ fileResolvers "resolvers.js" [("resolvers", bookResolvers)] = ([], bookResolvers).
Proof.
  split.
  - apply (@loadResolvers_file dashedNames singleKeys
             (fun payload returnData context info =>
                Extended.resolveReturnData payload returnData context info [])
             Extended.stitchingResolver
             "/app"
             (onlyModule "/app/resolvers.js"
                [("default", VObj PlainObject [("resolvers", bookResolvers)])])
             (fun topic => topic) "resolvers.js"
             [("default", VObj PlainObject [("resolvers", bookResolvers)])]
             eq_refl); reflexivity.
  - apply (@loadResolvers_file dashedNames singleKeys
             (fun payload returnData context info =>
                Extended.resolveReturnData payload returnData context info [])
             Extended.stitchingResolver
             "/app"
             (onlyModule "/app/resolvers.js" [("resolvers", bookResolvers)])
             (fun topic => topic) "resolvers.js"
             [("resolvers", bookResolvers)]
             eq_refl); reflexivity.
Defined.

(** A module whose default export is a function and which also exports
    [resolvers]: the third place of the search holds the resolvers, yet
    the descriptor contributes the empty map and the warning is
    written. *)
Lemma fileResolvers_skips_named_export :
  truthy (lookup_prop setupAndResolvers "resolvers") = true
  /\ fileResolvers "resolvers.js" setupAndResolvers
     = ([Warn "Unable to load resolvers from file: resolvers.js"], VObj PlainObject [])
  /\ Extended.resolveAdditionalResolvers "/app" (Some [FilePath "resolvers.js"])
       (onlyModule "/app/resolvers.js" setupAndResolvers) (fun topic => topic) [0]
     = ([ImportModule "/app/resolvers.js";
         Warn "Unable to load resolvers from file: resolvers.js"],
        Some (Fulfilled ∅))
  /\ fileResolvers "resolvers.js" setupAndResolvers
     <> ([], lookup_prop setupAndResolvers "resolvers").
Proof.
  split; [reflexivity|]. split; [reflexivity|]. split; [by vm_compute|]. discriminate.
Qed.

Lemma resolveAdditionalResolvers_last_wins_witness :
  exists resolvers,
    (Extended.resolveAdditionalResolvers "/app"
       (Some [StitchingObject (forward "Query" "a" None);
              SubscriptionObject (topic "Query" "a" "topic/a")])
       (failing (fun _ => "Could not locate module")) (fun topic => topic) [1; 0]).2
    = Some (Fulfilled resolvers)
    /\ entry resolvers "Query" "a"
       = Some (subscriptionResolver
                 (fun payload returnData context info =>
                    Extended.resolveReturnData payload returnData context info [])
                 (fun topic => topic) (topic "Query" "a" "topic/a")).
Proof.
  apply (@resolveAdditionalResolvers_last_wins dashedNames singleKeys
           (fun payload returnData context info =>
              Extended.resolveReturnData payload returnData context info [])
           Extended.stitchingResolver
           "/app" (failing (fun _ => "Could not locate module")) (fun topic => topic)
           [] (StitchingObject (forward "Query" "a" None))
           [] (SubscriptionObject (topic "Query" "a" "topic/a")) []
           [ {[ "Query" := {[ "a" := Extended.stitchingResolver (forward "Query" "a" None) ]} ]};
             {[ "Query" :=
                {[ "a" := subscriptionResolver
                            (fun payload returnData context info =>
                               Extended.resolveReturnData payload returnData context info [])
                            (fun topic => topic) (topic "Query" "a" "topic/a") ]} ]} ]
           [1; 0] "Query" "a"
           (Extended.stitchingResolver (forward "Query" "a" None))).
  - repeat constructor.
  - by apply (bool_decide_unpack _).
  - eexists. split; reflexivity.
  - eexists. split; reflexivity.
  - constructor.
Defined.

End SynthesizerExamples.

(** * Further properties *)

(** ** The extension resolver, whatever the loader does *)

Section ExtensionResolverOutcomes.
Context `{StringLib}.

Lemma tryModules_tried importFn name type modules :
  (tryModules importFn name type modules).1 `prefix_of` modules
  /\ (modules <> [] -> (tryModules importFn name type modules).1 <> []).
Proof.
  induction modules as [|m modules [IHprefix _]]; [split; [done | congruence]|].
  cbn [tryModules]. split.
  - destruct (importFn m) as [exported|message]; [by apply prefix_cons, prefix_nil|].
    destruct (negb _ && negb _); [by apply prefix_cons, prefix_nil|].
    destruct (tryModules importFn name type modules) as [tried r].
    by apply prefix_cons.
  - intros _. destruct (importFn m) as [exported|message]; [done|].
    destruct (negb _ && negb _); [done|].
    by destruct (tryModules importFn name type modules).
Qed.

Lemma possibleModules_length name type :
  length (possibleModules name type) = if includes name "-" then 9 else 8.
Proof. unfold possibleModules, possibleNames. by destruct (includes name "-"). Qed.

(** How a search can end, read back from its result. *)
Lemma tryModules_inv importFn name type modules tried r :
  tryModules importFn name type modules = (tried, r) ->
  match r with
  | Ok pkg =>
      exists before moduleName after exported,
        modules = before ++ moduleName :: after
        /\ tried = before ++ [moduleName]
        /\ Forall (missing importFn) before
        /\ importFn moduleName = Exports exported
        /\ pkg = pickExport exported
  | Throw thrown =>
      (tried = modules
       /\ Forall (missing importFn) modules
       /\ thrown = "Unable to find " +:+ type +:+ " matching " +:+ name)
      \/ (exists before moduleName after message,
            modules = before ++ moduleName :: after
            /\ tried = before ++ [moduleName]
            /\ Forall (missing importFn) before
            /\ importFn moduleName = LoadError message
            /\ isNotFound moduleName message = false
            /\ thrown = "Unable to load " +:+ type +:+ " matching " +:+ name
                        +:+ ": " +:+ message)
  end.
Proof.
  revert tried r. induction modules as [|m modules IH]; intros tried r; cbn [tryModules].
  - intros [= <- <-]. left. by repeat split.
  - destruct (importFn m) as [exported|message] eqn:Hload.
    + intros [= <- <-]. by exists [], m, modules, exported.
    + destruct (negb _ && negb _) eqn:Hfatal.
      * intros [= <- <-]. right. exists [], m, modules, message.
        repeat split; try done. unfold isNotFound.
        apply andb_true_iff in Hfatal as [H1 H2].
        apply negb_true_iff in H1, H2. by rewrite H1, H2.
      * assert (Hm : missing importFn m).
        { exists message. split; [done|]. unfold isNotFound.
          apply andb_false_iff in Hfatal as [H1|H2].
          - apply negb_false_iff in H1. by rewrite H1.
          - apply negb_false_iff in H2. rewrite H2. apply orb_true_r. }
        destruct (tryModules importFn name type modules) as [tried' r'].
        specialize (IH tried' r' eq_refl). intros [= <- <-].
        destruct r' as [pkg|thrown].
        -- destruct IH as (before & moduleName & after & exported & -> & -> & Hb & Hl & ->).
           exists (m :: before), moduleName, after, exported.
           repeat split; try done. by constructor.
        -- destruct IH as [(-> & Hall & ->) |
                           (before & moduleName & after & message' & -> & -> & Hb & Hl & Hnf & ->)].
           ++ left. repeat split; try done. by constructor.
           ++ right. exists (m :: before), moduleName, after, message'.
              repeat split; try done. by constructor.
Qed.

(** X1. Whatever the loader does, the identifiers handed to it are the
    first candidates of the list, in the order of the list: none is
    skipped, at least one is tried and at most nine. *)
Theorem getPackage_tried_candidates (name type : string) (importFn : ImportFn) :
  (getPackage name type importFn).1 `prefix_of` possibleModules name type
  /\ 1 <= length (getPackage name type importFn).1 <= 9.
Proof.
  unfold getPackage.
  destruct (tryModules_tried importFn name type (possibleModules name type))
    as [Hprefix Hnonempty].
  split; [done|]. split.
  - destruct (tryModules importFn name type (possibleModules name type)).1 eqn:Htried;
      [|cbn; lia].
    exfalso. apply Hnonempty; [|done].
    unfold possibleModules. by destruct (possibleNames _ _ ++ _), (includes name "-").
  - apply prefix_length in Hprefix. rewrite possibleModules_length in Hprefix.
    destruct (includes name "-"); lia.
Qed.

(** X2. A search that returns a value returns the export picked from the
    first candidate that did not fail as missing, and that candidate is
    the last one tried; a search that throws either met a failure that is
    not about a missing module at the last candidate tried, or tried
    every candidate and found each one missing. *)
Theorem getPackage_outcome (name type : string) (importFn : ImportFn)
    (tried : list string) (r : result value) :
  getPackage name type importFn = (tried, r) ->
  match r with
  | Ok pkg =>
      exists before moduleName after exported,
        possibleModules name type = before ++ moduleName :: after
        /\ tried = before ++ [moduleName]
        /\ Forall (missing importFn) before
        /\ importFn moduleName = Exports exported
        /\ pkg = pickExport exported
  | Throw thrown =>
      (tried = possibleModules name type
       /\ Forall (missing importFn) (possibleModules name type)
       /\ thrown = "Unable to find " +:+ type +:+ " matching " +:+ name)
      \/ (exists before moduleName after message,
            possibleModules name type = before ++ moduleName :: after
            /\ tried = before ++ [moduleName]
            /\ Forall (missing importFn) before
            /\ importFn moduleName = LoadError message
            /\ isNotFound moduleName message = false
            /\ thrown = "Unable to load " +:+ type +:+ " matching " +:+ name
                        +:+ ": " +:+ message)
  end.
Proof. apply tryModules_inv. Qed.

Lemma pickExport_truthy (exported : list (string * value)) :
  truthy (pickExport exported) = true.
Proof.
  unfold pickExport, js_or.
  destruct (truthy (lookup_prop exported "default")) eqn:Hdefault.
  - by rewrite Hdefault.
  - destruct (truthy (lookup_prop exported "parser")) eqn:Hparser; [|done].
    by rewrite Hparser.
Qed.

(** X3. A value returned by the search is never [undefined], [null] or
    otherwise falsy, so reading a property of it, as the callers do with
    [pkg.default], cannot throw. *)
Theorem getPackage_truthy (name type : string) (importFn : ImportFn)
    (tried : list string) (pkg : value) :
  getPackage name type importFn = (tried, Ok pkg) ->
  truthy pkg = true /\ pkg <> VUndefined /\ pkg <> VNull.
Proof.
  intros Hrun. apply tryModules_inv in Hrun as (_ & _ & _ & exported & _ & _ & _ & _ & ->).
  pose proof (pickExport_truthy exported) as Htruthy.
  split; [done|]. split; intros Heq; by rewrite Heq in Htruthy.
Qed.

(** X4. When the name keeps its spelling under [paramCase] and contains
    a dash, the list has nine candidates and the raw name, appended
    eighth, repeats the fourth: a loader that finds nothing is asked for
    that identifier twice. *)
Theorem possibleModules_raw_name_repeated (name type : string) (importFn : ImportFn) :
  paramCase name = name ->
  includes name "-" = true ->
  Forall (missing importFn) (possibleModules name type) ->
  length (possibleModules name type) = 9
  /\ (getPackage name type importFn).1 !! 3 = Some name
  /\ (getPackage name type importFn).1 !! 7 = Some name.
Proof.
  intros Hcased Hdash Hall.
  assert (Hrun : getPackage name type importFn
                 = (possibleModules name type,
                    Throw ("Unable to find " +:+ type +:+ " matching " +:+ name))).
  { unfold getPackage. rewrite <- (app_nil_r (possibleModules name type)) at 1.
    rewrite (tryModules_skip _ _ _ _ _ Hall). cbn [tryModules fst snd].
    by rewrite app_nil_r. }
  rewrite Hrun, possibleModules_length, Hdash. cbn [fst].
  unfold possibleModules, possibleNames. by rewrite Hdash, Hcased.
Qed.

End ExtensionResolverOutcomes.

(** ** The specialisations *)

Section SpecialisationProperties.
Context `{StringLib} (construct : value -> value -> value).

Lemma getPackage_all_missing name type importFn :
  Forall (missing importFn) (possibleModules name type) ->
  getPackage name type importFn
  = (possibleModules name type,
     Throw ("Unable to find " +:+ type +:+ " matching " +:+ name)).
Proof.
  intros Hall. unfold getPackage.
  rewrite <- (app_nil_r (possibleModules name type)) at 1.
  rewrite (tryModules_skip _ _ _ _ _ Hall). cbn [tryModules fst snd].
  by rewrite app_nil_r.
Qed.

Lemma getPackage_loaded name type importFn before moduleName after exported :
  possibleModules name type = before ++ moduleName :: after ->
  Forall (missing importFn) before ->
  importFn moduleName = Exports exported ->
  getPackage name type importFn = (before ++ [moduleName], Ok (pickExport exported)).
Proof.
  intros Hlist Hbefore Hload. unfold getPackage.
  by rewrite Hlist, (tryModules_skip _ _ _ _ _ Hbefore),
    (tryModules_loaded _ _ _ _ _ _ Hload).
Qed.

(** Without a configuration, and with the empty string for one
    where the configuration is a string, the cache, the pub/sub bus and
    the merger are the built-in ones and the loader is not called. *)
Lemma specialisations_unconfigured (importFn : ImportFn) :
  resolveCache construct None importFn
  = ([], Ok (construct InMemoryLRUCache VUndefined))
  /\ resolvePubSub construct None importFn = ([], Ok (InProcessPubSub construct))
  /\ resolvePubSub construct (Some (PubSubName "")) importFn
     = ([], Ok (InProcessPubSub construct))
  /\ resolveMerger None importFn = ([], Ok StitchingMerger)
  /\ resolveMerger (Some "") importFn = ([], Ok StitchingMerger).
Proof. by repeat split. Qed.

(** X5. A configured cache, bus or merger that no candidate provides
    fails with the error of the search, after all candidates have been
    tried. The name in the message is the one searched for: for a cache
    and a bus the kebab-cased name, for a merger the name as configured;
    for a cache it comes from the first key of the configuration and the
    other keys play no part. *)
Theorem specialisations_not_found (importFn : ImportFn)
    (cacheName : string) (config : value) (others : list (string * value))
    (pubsubName : string) (pubsubConfig : value) (mergerName : string) :
  (Forall (missing importFn) (possibleModules (kebabCase cacheName) "cache") ->
   resolveCache construct (Some ((cacheName, config) :: others)) importFn
   = (possibleModules (kebabCase cacheName) "cache",
      Throw ("Unable to find cache matching " +:+ kebabCase cacheName)))
  /\ (Forall (missing importFn) (possibleModules (kebabCase pubsubName) "pubsub") ->
      resolvePubSub construct (Some (PubSubObject pubsubName pubsubConfig)) importFn
      = (possibleModules (kebabCase pubsubName) "pubsub",
         Throw ("Unable to find pubsub matching " +:+ kebabCase pubsubName)))
  /\ (mergerName <> "" ->
      Forall (missing importFn) (possibleModules mergerName "merger") ->
      resolveMerger (Some mergerName) importFn
      = (possibleModules mergerName "merger",
         Throw ("Unable to find merger matching " +:+ mergerName))).
Proof.
  split; [|split].
  - intros Hall. unfold resolveCache. by rewrite (getPackage_all_missing _ _ _ Hall).
  - intros Hall. unfold resolvePubSub. by rewrite (getPackage_all_missing _ _ _ Hall).
  - intros Hname Hall. unfold resolveMerger.
    apply String.eqb_neq in Hname. rewrite Hname. cbn [negb].
    by rewrite (getPackage_all_missing _ _ _ Hall).
Qed.

(** X6. A configured cache is built from the module found for the
    kebab-cased first key of the configuration, with the value under that
    key as its only argument. The class is the export picked by the
    search, or the [default] property of that export when it has a truthy
    one, so a default export that wraps a second [default] is unwrapped
    twice. *)
Theorem resolveCache_constructs (importFn : ImportFn)
    (cacheName : string) (config : value) (others : list (string * value))
    (before : list string) (moduleName : string) (after : list string)
    (exported : list (string * value)) :
  possibleModules (kebabCase cacheName) "cache" = before ++ moduleName :: after ->
  Forall (missing importFn) before ->
  importFn moduleName = Exports exported ->
  let pkg := pickExport exported in
  resolveCache construct (Some ((cacheName, config) :: others)) importFn
  = (before ++ [moduleName],
     Ok (construct (if truthy (prop pkg "default") then prop pkg "default" else pkg)
           config)).
Proof.
  intros Hlist Hbefore Hload pkg. unfold resolveCache.
  by rewrite (getPackage_loaded _ _ _ _ _ _ _ Hlist Hbefore Hload).
Qed.

(** X7. A configured bus is built the same way, from the module found
    for the kebab-cased name; it is given the [config] of a
    [{name, config}] configuration and [undefined] when the
    configuration is only a name. *)
Theorem resolvePubSub_constructs (importFn : ImportFn)
    (pubsubName : string) (pubsubConfig : value)
    (before : list string) (moduleName : string) (after : list string)
    (exported : list (string * value)) :
  possibleModules (kebabCase pubsubName) "pubsub" = before ++ moduleName :: after ->
  Forall (missing importFn) before ->
  importFn moduleName = Exports exported ->
  let pkg := pickExport exported in
  let PubSub := if truthy (prop pkg "default") then prop pkg "default" else pkg in
  resolvePubSub construct (Some (PubSubObject pubsubName pubsubConfig)) importFn
  = (before ++ [moduleName], Ok (construct PubSub pubsubConfig))
  /\ (pubsubName <> "" ->
      resolvePubSub construct (Some (PubSubName pubsubName)) importFn
      = (before ++ [moduleName], Ok (construct PubSub VUndefined))).
Proof.
  intros Hlist Hbefore Hload pkg PubSub. unfold resolvePubSub. split.
  - by rewrite (getPackage_loaded _ _ _ _ _ _ _ Hlist Hbefore Hload).
  - intros Hname. apply String.eqb_neq in Hname. rewrite Hname. cbn [negb].
    by rewrite (getPackage_loaded _ _ _ _ _ _ _ Hlist Hbefore Hload).
Qed.

End SpecialisationProperties.

(** ** The extractor and the stitching resolver, further *)

Section StitchingOutcomes.
Context `{ObjectLib} `{Delegate}.

Lemma resolveReturnData_plain_source (source : value) (returnData : option string)
    (context : Context) (info : GraphQLResolveInfo) (rest : list extra) :
  isExternalObject source <> Ok true ->
  Base.resolveReturnData source returnData context info
  = Extended.resolveReturnData source returnData context info rest.
Proof.
  intros Hplain. unfold Extended.resolveReturnData, Base.resolveReturnData.
  destruct (isGraphQLError _); [done|].
  destruct (isExternalObject (extracted source returnData)) as [[|]|]; [done| |done].
  by destruct (isExternalObject source) as [[|]|].
Qed.

(** X8. A source that is not external is never handed to
    [resolveExternalValue]: the trailing arguments play no part and the
    two revisions agree, on the value returned and on the error thrown.
    When the source is neither [null] nor [undefined], the value looked
    up is returned as it is unless it is a [GraphQLError], [null] or
    [undefined]; whenever the value looked up is [null] or [undefined],
    the extractor throws the [TypeError] of [isExternalObject]. *)
Theorem resolveReturnData_not_external (source : value) (returnData : option string)
    (context : Context) (info : GraphQLResolveInfo) (rest rest' : list extra) :
  isExternalObject source <> Ok true ->
  Extended.resolveReturnData source returnData context info rest
  = Extended.resolveReturnData source returnData context info rest'
  /\ Base.resolveReturnData source returnData context info
     = Extended.resolveReturnData source returnData context info rest
  /\ (nullish source = false ->
      isGraphQLError (extracted source returnData) = false ->
      nullish (extracted source returnData) = false ->
      Extended.resolveReturnData source returnData context info rest
      = Ok (extracted source returnData))
  /\ (nullish (extracted source returnData) = true ->
      Extended.resolveReturnData source returnData context info rest
      = Throw (nullishTypeError (extracted source returnData))).
Proof.
  intros Hplain. split; [|split; [|split]].
  - by rewrite <- !(resolveReturnData_plain_source _ _ _ _ _ Hplain).
  - by apply resolveReturnData_plain_source.
  - intros Hsource Hgql Hresult. unfold Extended.resolveReturnData.
    rewrite Hgql, (isExternalObject_Ok _ Hresult).
    destruct (externalTag (extracted source returnData)); [done|].
    rewrite (isExternalObject_Ok _ Hsource) in *.
    destruct (externalTag source); [by destruct Hplain | done].
  - intros Hresult.
    by destruct (resolveReturnData_nullish source returnData context info rest Hresult).
Qed.

(** X9. A [GraphQLError] found at the path is replaced by its
    [originalError] in both revisions, also when the source is external:
    nothing is re-resolved, and a [GraphQLError] that wraps no other
    error comes back as [undefined]. *)
Theorem resolveReturnData_unwraps_at_path (source : value) (path : string)
    (context : Context) (info : GraphQLResolveInfo) (rest : list extra) :
  instanceofError source = false ->
  path <> "" ->
  isGraphQLError (get source path) = true ->
  Extended.resolveReturnData source (Some path) context info rest
  = Ok (prop (get source path) "originalError")
  /\ Base.resolveReturnData source (Some path) context info
     = Ok (prop (get source path) "originalError")
  /\ (prop (get source path) "originalError" = VUndefined ->
      Extended.resolveReturnData source (Some path) context info rest = Ok VUndefined).
Proof.
  intros Herr Hpath Hgql.
  unfold Extended.resolveReturnData, Base.resolveReturnData.
  rewrite (extracted_get _ _ Herr Hpath), Hgql. repeat split. by intros ->.
Qed.

Lemma castArray_scalar (methodArgs : value) :
  isArray methodArgs = false -> castArray methodArgs = [methodArgs].
Proof. by destruct methodArgs. Qed.

(** X10. In the newer revision, an argument that is not an array and an
    answer that is not an [Error]: the resolver makes the one call and
    hands the answer to the extractor together with the nullable form of
    the field's return type. It fulfils with what the extractor returns,
    not with an array, and rejects with what the extractor throws, as it
    does on an answer that is [null]. *)
Theorem stitchingResolve_scalar (additionalResolver : Stitching.t)
    (root args : value) (context : Context) (info : GraphQLResolveInfo)
    (answer : value) (order : list nat) :
  let resolverData :=
    {| root := root; args := args; context := context; info := info |} in
  let methodArgs :=
    Extended.normalizeMethodArgs (Stitching.args additionalResolver) resolverData in
  let options :=
    {| selectedFields := Stitching.resultSelectedFields additionalResolver;
       selectionSet := Stitching.resultSelectionSet additionalResolver;
       depth := Stitching.resultDepth additionalResolver |} in
  let source := Stitching.targetSource additionalResolver in
  let method := Stitching.targetMethod additionalResolver in
  isArray methodArgs = false ->
  api context source method methodArgs options = Fulfilled answer ->
  instanceofError answer = false ->
  order ≡ₚ seq 0 1 ->
  Extended.stitchingResolve additionalResolver root args context info order
  = ([ApiCall source method methodArgs options; ReturnData answer],
     Some (promiseOf
             (Extended.resolveReturnData answer (Stitching.returnData additionalResolver)
                context info [ReturnType (Some (getNullableType (returnType info)))]))).
Proof.
  intros resolverData methodArgs options source method Hscalar Hcall Hanswer Horder.
  apply Permutation_singleton_r in Horder as ->.
  unfold Extended.stitchingResolve.
  fold resolverData. fold methodArgs. fold options. fold source. fold method.
  rewrite Hscalar, (castArray_scalar _ Hscalar).
  cbn [fmap list_fmap]. rewrite Hcall. cbn [Extended.afterCall].
  rewrite Hanswer. cbn [fmap list_fmap snd fst completions flat_map app].
  destruct (Extended.resolveReturnData _ _ _ _ _); reflexivity.
Qed.

(** X11. In the newer revision, a backend call that rejects rejects the
    field, for one argument and for an array alike and whatever the order
    of completion: all calls have been issued, in the order of the
    elements, and no [null] stands in for the failure. The message is
    that of an element that failed: of a call that rejected, or of the
    extractor where it threw on an answer that is not an [Error]. *)
Theorem stitchingResolve_rejects (additionalResolver : Stitching.t)
    (root args : value) (context : Context) (info : GraphQLResolveInfo)
    (i : nat) (item : value) (message : string) (order : list nat) :
  let resolverData :=
    {| root := root; args := args; context := context; info := info |} in
  let methodArgs :=
    Extended.normalizeMethodArgs (Stitching.args additionalResolver) resolverData in
  let options :=
    {| selectedFields := Stitching.resultSelectedFields additionalResolver;
       selectionSet := Stitching.resultSelectionSet additionalResolver;
       depth := Stitching.resultDepth additionalResolver |} in
  let source := Stitching.targetSource additionalResolver in
  let method := Stitching.targetMethod additionalResolver in
  let expected :=
    if isArray methodArgs then ofType (getNullableType (returnType info))
    else Some (getNullableType (returnType info)) in
  castArray methodArgs !! i = Some item ->
  api context source method item options = Rejected message ->
  order ≡ₚ seq 0 (length (castArray methodArgs)) ->
  exists later item' message',
    Extended.stitchingResolve additionalResolver root args context info order
    = (((fun item => ApiCall source method item options) <$> castArray methodArgs)
         ++ later,
       Some (Rejected message'))
    /\ item' ∈ castArray methodArgs
    /\ (api context source method item' options = Rejected message'
        \/ exists answer,
             api context source method item' options = Fulfilled answer
             /\ instanceofError answer = false
             /\ Extended.resolveReturnData answer
                  (Stitching.returnData additionalResolver) context info
                  [ReturnType expected]
                = Throw message').
Proof.
  intros resolverData methodArgs options source method expected Hitem Hcall Horder.
  unfold Extended.stitchingResolve.
  fold resolverData. fold methodArgs. fold options. fold source. fold method.
  fold expected.
  set (promises :=
         (fun item =>
            Extended.afterCall (Stitching.returnData additionalResolver) context info
              expected (api context source method item options))
           <$> castArray methodArgs).
  destruct (promise_all_rejected (snd <$> promises) order i message)
    as (message' & Hall & Hin).
  { unfold promises. by rewrite !length_fmap. }
  { unfold promises. rewrite !list_lookup_fmap, Hitem. cbn. by rewrite Hcall. }
  apply list_elem_of_fmap in Hin as ([events settled] & Hsettled & Hin).
  cbn in Hsettled. subst settled.
  apply list_elem_of_fmap in Hin as (item' & Hafter & Hitem').
  exists (completions (fst <$> promises) order), item', message'.
  rewrite Hall. split; [done|]. split; [done|].
  unfold Extended.afterCall in Hafter.
  destruct (api context source method item' options) as [answer|message''].
  - right. exists answer. split; [done|].
    destruct (instanceofError answer); [done|]. split; [done|].
    destruct (Extended.resolveReturnData _ _ _ _ _) as [v|thrown]; [done|].
    by injection Hafter as _ <-.
  - left. by injection Hafter as _ <-.
Qed.

Lemma Base_resolve_settled (additionalResolver : Stitching.t)
    (root args : value) (context : Context) (info : GraphQLResolveInfo)
    (templates : list (string * string)) (order : list nat) :
  let resolverData :=
    {| root := root; args := args; context := context; info := info |} in
  let methodArgs := interpolateArgs templates resolverData in
  let options :=
    {| selectedFields := Stitching.resultSelectedFields additionalResolver;
       selectionSet := Stitching.resultSelectionSet additionalResolver;
       depth := Stitching.resultDepth additionalResolver |} in
  let source := Stitching.targetSource additionalResolver in
  let method := Stitching.targetMethod additionalResolver in
  Stitching.args additionalResolver = ArgsMapping templates ->
  Base.stitchingResolve additionalResolver root args context info order
  = match api context source method methodArgs options with
    | Fulfilled answer =>
        ([ApiCall source method methodArgs options; ReturnData answer],
         Some (promiseOf (Base.resolveReturnData answer
                            (Stitching.returnData additionalResolver) context info)))
    | Rejected message =>
        ([ApiCall source method methodArgs options], Some (Rejected message))
    end.
Proof. intros resolverData methodArgs options source method Hargs.
  unfold Base.stitchingResolve. by rewrite Hargs. Qed.

(** X12. The two revisions of the stitching resolver do the same for a
    static argument mapping that does not interpolate to an array: when
    the call rejects both reject with its message, and when the answer is
    neither an [Error] nor external both make the same call, hand the
    answer to the extractor and settle alike: they fulfil with the same
    value, or reject with the same error where the extractor throws. *)
Theorem stitchingResolve_revisions_agree (additionalResolver : Stitching.t)
    (root args : value) (context : Context) (info : GraphQLResolveInfo)
    (templates : list (string * string)) :
  let resolverData :=
    {| root := root; args := args; context := context; info := info |} in
  let methodArgs := interpolateArgs templates resolverData in
  let options :=
    {| selectedFields := Stitching.resultSelectedFields additionalResolver;
       selectionSet := Stitching.resultSelectionSet additionalResolver;
       depth := Stitching.resultDepth additionalResolver |} in
  let source := Stitching.targetSource additionalResolver in
  let method := Stitching.targetMethod additionalResolver in
  Stitching.args additionalResolver = ArgsMapping templates ->
  isArray methodArgs = false ->
  (forall message,
      api context source method methodArgs options = Rejected message ->
      Extended.stitchingResolve additionalResolver root args context info [0]
      = Base.stitchingResolve additionalResolver root args context info [0])
  /\ (forall answer,
      api context source method methodArgs options = Fulfilled answer ->
      instanceofError answer = false ->
      isExternalObject answer <> Ok true ->
      Extended.stitchingResolve additionalResolver root args context info [0]
      = Base.stitchingResolve additionalResolver root args context info [0]).
Proof.
  intros resolverData methodArgs options source method Hargs Hscalar.
  pose proof (Base_resolve_settled additionalResolver root args context info
                templates [0] Hargs) as Hbase.
  cbv zeta in Hbase. fold resolverData methodArgs options source method in Hbase.
  assert (Hnormal : Extended.normalizeMethodArgs (Stitching.args additionalResolver)
                      resolverData = methodArgs) by (by rewrite Hargs).
  split.
  - intros message Hcall. rewrite Hbase, Hcall.
    unfold Extended.stitchingResolve. fold resolverData. rewrite Hnormal.
    fold options. fold source. fold method.
    rewrite Hscalar, (castArray_scalar _ Hscalar).
    cbn [fmap list_fmap]. by rewrite Hcall.
  - intros answer Hcall Hanswer Hplain. rewrite Hbase, Hcall.
    unfold Extended.stitchingResolve. fold resolverData. rewrite Hnormal.
    fold options. fold source. fold method.
    rewrite Hscalar, (castArray_scalar _ Hscalar).
    cbn [fmap list_fmap]. rewrite Hcall. cbn [Extended.afterCall]. rewrite Hanswer.
    rewrite (resolveReturnData_plain_source answer _ context info
               [ReturnType (Some (getNullableType (returnType info)))] Hplain).
    cbn [fmap list_fmap snd fst completions flat_map app].
    destruct (Extended.resolveReturnData _ _ _ _ _); reflexivity.
Qed.

End StitchingOutcomes.

(** ** Compiling the descriptors, further *)

Section SynthesizerOutcomes.
Context `{StringLib} `{ObjectLib}.
Context (resolveReturnData :
           value -> option string -> Context -> GraphQLResolveInfo -> result value).
Context (stitchingResolver : Stitching.t -> FieldResolver).

Abbreviation loadResolvers :=
  (Synthesizer.loadResolvers resolveReturnData stitchingResolver).
Abbreviation contribution :=
  (Synthesizer.contribution resolveReturnData stitchingResolver).
Abbreviation resolveAdditionalResolvers :=
  (Synthesizer.resolveAdditionalResolvers resolveReturnData stitchingResolver).

Lemma completions_Forall (P : event -> Prop) (continuations : list (list event))
    (order : list nat) :
  Forall (Forall P) continuations -> Forall P (completions continuations order).
Proof.
  intros Hall. unfold completions. induction order as [|i order IH]; [constructor|].
  cbn [flat_map]. apply Forall_app. split; [|done].
  destruct (continuations !! i) as [events|] eqn:Hi; [|constructor].
  apply (Forall_lookup_1 _ _ _ _ Hall Hi).
Qed.

Lemma loadResolvers_started baseDir importFn pubsub
    (additionalResolvers : list AdditionalResolver) :
  flat_map fst (loadResolvers baseDir importFn pubsub <$> additionalResolvers)
  = (fun filePath => ImportModule (path_resolve baseDir filePath))
      <$> filePaths additionalResolvers.
Proof.
  induction additionalResolvers as [|d ds IH]; [done|].
  rewrite fmap_cons. cbn [flat_map]. rewrite IH. by destruct d.
Qed.

Lemma loadResolvers_warnings baseDir importFn pubsub
    (additionalResolvers : list AdditionalResolver) :
  Forall (Forall (fun e => exists message, e = Warn message))
    ((fun p => fst (snd p))
       <$> (loadResolvers baseDir importFn pubsub <$> additionalResolvers)).
Proof.
  induction additionalResolvers as [|d ds IH]; [constructor|].
  rewrite !fmap_cons. constructor; [|done].
  destruct d as [filePath| |]; cbn; [|constructor..].
  destruct (importFn _) as [exported|message]; [|constructor].
  unfold fileResolvers. destruct (negb _); cbn; repeat constructor. eauto.
Qed.

Lemma contribution_rejected baseDir importFn pubsub d message :
  contribution baseDir importFn pubsub d = Rejected message ->
  exists filePath,
    d = FilePath filePath
    /\ importFn (path_resolve baseDir filePath) = LoadError message.
Proof.
  unfold Synthesizer.contribution. destruct d as [filePath| |]; cbn; [|done..].
  destruct (importFn _) as [exported|message'] eqn:Hload.
  - by destruct (fileResolvers filePath exported).
  - intros [= <-]. eauto.
Qed.

Lemma contributions_all_loaded baseDir importFn pubsub
    (additionalResolvers : list AdditionalResolver) :
  Forall (fun d => exists c, contribution baseDir importFn pubsub d = Fulfilled c)
    additionalResolvers ->
  exists loaded,
    Forall2 (fun d c => contribution baseDir importFn pubsub d = Fulfilled c)
      additionalResolvers loaded.
Proof.
  induction 1 as [|d ds [c Hc] _ [loaded IH]]; [by exists []|].
  exists (c :: loaded). by constructor.
Qed.

Lemma resolveAdditionalResolvers_log baseDir importFn pubsub
    (additionalResolvers : list AdditionalResolver) (order : list nat) :
  (resolveAdditionalResolvers baseDir (Some additionalResolvers) importFn pubsub order).1
  = ((fun filePath => ImportModule (path_resolve baseDir filePath))
       <$> filePaths additionalResolvers)
    ++ completions
         ((fun p => fst (snd p))
            <$> (loadResolvers baseDir importFn pubsub <$> additionalResolvers))
         order.
Proof.
  rewrite <- (loadResolvers_started baseDir importFn pubsub).
  unfold Synthesizer.resolveAdditionalResolvers. cbv zeta. cbn [default]. unfold id.
  by destruct (promise_all _ order) as [[loaded|message]|].
Qed.

(** X14. Whatever the loader answers and in whatever order the loads
    complete, the compilation asks the loader exactly for the files named
    by the string descriptors, each resolved against the base directory,
    once each and in the order of the descriptors, before anything else;
    all it does after that is write warnings. *)
Theorem resolveAdditionalResolvers_imports baseDir importFn pubsub
    (additionalResolvers : list AdditionalResolver) (order : list nat) :
  exists warnings,
    (resolveAdditionalResolvers baseDir (Some additionalResolvers) importFn pubsub order).1
    = ((fun filePath => ImportModule (path_resolve baseDir filePath))
         <$> filePaths additionalResolvers) ++ warnings
    /\ Forall (fun e => exists message, e = Warn message) warnings.
Proof.
  eexists. split; [apply resolveAdditionalResolvers_log|].
  apply completions_Forall, loadResolvers_warnings.
Qed.

Lemma loadResolvers_inline_quiet baseDir importFn pubsub
    (additionalResolvers : list AdditionalResolver) :
  filePaths additionalResolvers = [] ->
  Forall (Forall (fun _ => False))
    ((fun p => fst (snd p))
       <$> (loadResolvers baseDir importFn pubsub <$> additionalResolvers))
  /\ Forall (fun d => exists c, contribution baseDir importFn pubsub d = Fulfilled c)
       additionalResolvers.
Proof.
  induction additionalResolvers as [|d ds IH]; [by split; constructor|].
  destruct d as [filePath| |]; [done| |]; intros Hinline;
    destruct (IH Hinline) as [Hquiet Hloaded];
    (split; [rewrite !fmap_cons; constructor; [constructor | done]
            | constructor; [by eexists | done]]).
Qed.

(** X15. Descriptors that are all objects compile without a call of the
    loader, without a warning and without a failure, whatever the loader
    would do; an absent list of descriptors is an empty one. *)
Theorem resolveAdditionalResolvers_inline baseDir importFn pubsub
    (additionalResolvers : list AdditionalResolver) (order : list nat) :
  filePaths additionalResolvers = [] ->
  order ≡ₚ seq 0 (length additionalResolvers) ->
  (exists resolvers,
      resolveAdditionalResolvers baseDir (Some additionalResolvers) importFn pubsub order
      = ([], Some (Fulfilled resolvers)))
  /\ resolveAdditionalResolvers baseDir None importFn pubsub order
     = resolveAdditionalResolvers baseDir (Some []) importFn pubsub order.
Proof.
  intros Hinline Horder. split; [|done].
  destruct (loadResolvers_inline_quiet baseDir importFn pubsub _ Hinline)
    as [Hquiet Hloaded].
  apply contributions_all_loaded in Hloaded as [loaded Hloaded].
  exists (mergeResolvers loaded).
  pose proof (resolveAdditionalResolvers_fulfilled resolveReturnData stitchingResolver
                _ _ _ _ _ _ Hloaded Horder) as Hresult.
  pose proof (resolveAdditionalResolvers_log baseDir importFn pubsub
                additionalResolvers order) as Hlog.
  rewrite Hinline in Hlog. cbn [fmap list_fmap app] in Hlog.
  apply (completions_Forall _ _ order) in Hquiet.
  destruct (completions _ order) as [|e events]; [|by inversion Hquiet].
  destruct (resolveAdditionalResolvers _ _ _ _ _) as [log result].
  cbn in Hlog, Hresult. by subst.
Qed.

(** X16. A file that fails to load fails the compilation, whatever the
    other descriptors are and in whatever order the loads complete: the
    compilation rejects with the loader's message for a file of the list
    that failed to load, and no resolver map is produced. *)
Theorem resolveAdditionalResolvers_load_failure baseDir importFn pubsub
    (additionalResolvers : list AdditionalResolver) (order : list nat)
    (i : nat) (filePath message : string) :
  additionalResolvers !! i = Some (FilePath filePath) ->
  importFn (path_resolve baseDir filePath) = LoadError message ->
  order ≡ₚ seq 0 (length additionalResolvers) ->
  exists filePath' message',
    (resolveAdditionalResolvers baseDir (Some additionalResolvers) importFn pubsub order).2
    = Some (Rejected message')
    /\ FilePath filePath' ∈ additionalResolvers
    /\ importFn (path_resolve baseDir filePath') = LoadError message'.
Proof.
  intros Hi Hload Horder.
  set (promises := (fun p => snd (snd p))
                     <$> (loadResolvers baseDir importFn pubsub <$> additionalResolvers)).
  destruct (promise_all_rejected promises order i message) as (message' & Hall & Hin).
  { unfold promises. by rewrite !length_fmap. }
  { unfold promises. rewrite !list_lookup_fmap, Hi. cbn. by rewrite Hload. }
  unfold promises in Hin. rewrite <- list_fmap_compose in Hin.
  apply list_elem_of_fmap in Hin as (d & Hd & Hin). symmetry in Hd.
  apply contribution_rejected in Hd as (filePath' & -> & Hload').
  exists filePath', message'. split; [|done].
  unfold Synthesizer.resolveAdditionalResolvers. cbv zeta. cbn [default]. unfold id.
  fold promises. by rewrite Hall.
Qed.

(** X17. When every descriptor loads, the compilation fulfils, and with
    the same resolver map for every order in which the loads complete. *)
Theorem resolveAdditionalResolvers_order_irrelevant baseDir importFn pubsub
    (additionalResolvers : list AdditionalResolver) (order order' : list nat) :
  Forall (fun d => exists c, contribution baseDir importFn pubsub d = Fulfilled c)
    additionalResolvers ->
  order ≡ₚ seq 0 (length additionalResolvers) ->
  order' ≡ₚ seq 0 (length additionalResolvers) ->
  exists resolvers,
    (resolveAdditionalResolvers baseDir (Some additionalResolvers) importFn pubsub order).2
    = Some (Fulfilled resolvers)
    /\ (resolveAdditionalResolvers baseDir (Some additionalResolvers) importFn pubsub
          order').2
       = Some (Fulfilled resolvers).
Proof.
  intros Hloaded Horder Horder'.
  apply contributions_all_loaded in Hloaded as [loaded Hloaded].
  exists (mergeResolvers loaded).
  split; by apply resolveAdditionalResolvers_fulfilled.
Qed.

End SynthesizerOutcomes.

(** ** Additional type definitions *)

Section AdditionalTypeDefsProperties.
Context `{TypeDefsLib}.

Lemma mapSources_documents (sources : list Source) :
  Forall (fun source => truthy (document source) = true) sources ->
  mapSources sources = Ok (document <$> sources).
Proof.
  induction 1 as [|source sources Hdoc _ IH]; [done|].
  cbn [mapSources]. unfold sourceDocument. by rewrite Hdoc, IH.
Qed.

Lemma mapSources_Ok (sources : list Source) (docs : list value) :
  mapSources sources = Ok docs ->
  Forall2 (fun source doc => sourceDocument source = Ok doc) sources docs.
Proof.
  revert docs. induction sources as [|source sources IH]; intros docs; cbn [mapSources].
  - intros [= <-]. constructor.
  - destruct (sourceDocument source) as [doc|message] eqn:Hdoc; [|done].
    destruct (mapSources sources) as [docs'|message]; [|done].
    intros [= <-]. constructor; [done | by apply IH].
Qed.

Lemma mapSources_Throw (before : list Source) (source : Source) (after : list Source)
    (docs : list value) (message : string) :
  Forall2 (fun source doc => sourceDocument source = Ok doc) before docs ->
  sourceDocument source = Throw message ->
  mapSources (before ++ source :: after) = Throw message.
Proof.
  intros Hbefore Hthrow.
  induction Hbefore as [|s doc before docs Hdoc _ IH]; cbn [app mapSources].
  - by rewrite Hthrow.
  - by rewrite Hdoc, IH.
Qed.

(** X18. Sources that come with a document are passed on as they are,
    one document per source and in the order of the sources: neither
    [parse] nor [printSchemaWithDirectives] can fail the call, whatever
    text or schema stands next to the document. *)
Theorem resolveAdditionalTypeDefs_documents (baseDir pointer : string)
    (sources : list Source) :
  pointer <> "" ->
  loadTypedefs pointer baseDir = Fulfilled sources ->
  Forall (fun source => truthy (document source) = true) sources ->
  resolveAdditionalTypeDefs baseDir (Some pointer)
  = ([(pointer, baseDir)], Fulfilled (VArr (document <$> sources))).
Proof.
  intros Hpointer Hload Hdocs. unfold resolveAdditionalTypeDefs.
  apply String.eqb_neq in Hpointer. rewrite Hpointer. cbn [negb].
  by rewrite Hload, (mapSources_documents _ Hdocs).
Qed.

(** X19. What a fulfilled call returned, read back: [undefined] without
    a call of [loadTypedefs] when no pointer or the empty one was given;
    otherwise an array with one document per loaded source, in order,
    where a source's own document comes before the parse of its text,
    and a text that is absent or empty gives way to the printed
    schema. *)
Theorem resolveAdditionalTypeDefs_fulfilled (baseDir : string)
    (additionalTypeDefs : option string) (calls : list (string * string)) (v : value) :
  resolveAdditionalTypeDefs baseDir additionalTypeDefs = (calls, Fulfilled v) ->
  (calls = [] /\ v = VUndefined
   /\ (additionalTypeDefs = None \/ additionalTypeDefs = Some ""))
  \/ (exists pointer sources docs,
        additionalTypeDefs = Some pointer /\ pointer <> ""
        /\ calls = [(pointer, baseDir)]
        /\ loadTypedefs pointer baseDir = Fulfilled sources
        /\ v = VArr docs
        /\ length docs = length sources
        /\ Forall2
             (fun source doc =>
                (truthy (document source) = true /\ doc = document source)
                \/ (truthy (document source) = false /\ truthy (rawSDL source) = true
                    /\ parse (rawSDL source) = Ok doc)
                \/ (truthy (document source) = false /\ truthy (rawSDL source) = false
                    /\ exists printed,
                         printSchemaWithDirectives (schema source) = Ok printed
                         /\ parse printed = Ok doc))
             sources docs).
Proof.
  unfold resolveAdditionalTypeDefs. destruct additionalTypeDefs as [pointer|].
  - destruct (String.eqb pointer "") eqn:Hpointer; cbn [negb].
    + apply String.eqb_eq in Hpointer as ->. intros [= <- <-]. left. by eauto.
    + apply String.eqb_neq in Hpointer.
      destruct (loadTypedefs pointer baseDir) as [sources|message] eqn:Hload; [|done].
      destruct (mapSources sources) as [docs|message] eqn:Hmap; [|done].
      intros [= <- <-]. right. exists pointer, sources, docs.
      apply mapSources_Ok in Hmap. repeat split; try done.
      * symmetry. by apply Forall2_length in Hmap.
      * eapply Forall2_impl; [exact Hmap|]. intros source doc. cbn.
        unfold sourceDocument.
        destruct (truthy (document source)); [intros [= <-]; by left|].
        destruct (truthy (rawSDL source)); [intros Hparse; right; by left|].
        destruct (printSchemaWithDirectives (schema source)) as [printed|message];
          [|done].
        intros Hparse. right. right. by eauto.
  - intros [= <- <-]. left. by eauto.
Qed.

(** X20. A failure is not recovered: when [loadTypedefs] rejects, the
    call rejects with its message, and when the sources load, the first
    source in order whose document has to be parsed or printed and
    cannot be rejects the call with that error, whatever the sources
    after it are. *)
Theorem resolveAdditionalTypeDefs_rejects (baseDir pointer : string) :
  pointer <> "" ->
  (forall message,
      loadTypedefs pointer baseDir = Rejected message ->
      resolveAdditionalTypeDefs baseDir (Some pointer)
      = ([(pointer, baseDir)], Rejected message))
  /\ (forall before source after docs message,
      loadTypedefs pointer baseDir = Fulfilled (before ++ source :: after) ->
      Forall2 (fun source doc => sourceDocument source = Ok doc) before docs ->
      sourceDocument source = Throw message ->
      resolveAdditionalTypeDefs baseDir (Some pointer)
      = ([(pointer, baseDir)], Rejected message)).
Proof.
  intros Hpointer. unfold resolveAdditionalTypeDefs.
  apply String.eqb_neq in Hpointer. rewrite Hpointer. cbn [negb]. split.
  - by intros message ->.
  - intros before source after docs message -> Hbefore Hthrow.
    by rewrite (mapSources_Throw _ _ _ _ _ Hbefore Hthrow).
Qed.

End AdditionalTypeDefsProperties.

(** ** The introspection cache *)

Section IntrospectionCacheProperties.
Context `{FileSystem}.

(** X21. The introspection cache reads at most one file, and only after
    it has found it to exist: the configured path itself when it is
    absolute, else the path joined to the directory; the result is then
    whatever reading that file gives. When nothing is read, because
    nothing is configured or the file is not there, the result is the
    empty object and never a failure. *)
Theorem resolveIntrospectionCache_reads (introspectionCacheConfig : option string)
    (dir : string) :
  let run := resolveIntrospectionCache introspectionCacheConfig dir in
  (forall path,
      ReadJSON path ∈ run.1 ->
      pathExists path = true
      /\ run.1 = [PathExists path; ReadJSON path]
      /\ run.2 = readJSON path
      /\ exists config,
           introspectionCacheConfig = Some config
           /\ path = if isAbsolute config then config else join dir config)
  /\ ((forall path, ReadJSON path ∉ run.1) ->
      run.2 = Fulfilled (VObj PlainObject []))
  /\ (introspectionCacheConfig = None \/ introspectionCacheConfig = Some "" ->
      run = ([], Fulfilled (VObj PlainObject []))).
Proof.
  intros run. unfold run, resolveIntrospectionCache.
  destruct introspectionCacheConfig as [config|].
  - destruct (String.eqb config "") eqn:Hconfig; cbn [negb].
    + split; [|split]; [intros path Hin; by apply elem_of_nil in Hin | done | done].
    + apply String.eqb_neq in Hconfig.
      set (absolutePath := if isAbsolute config then config else join dir config).
      destruct (pathExists absolutePath) eqn:Hexists; cbn [fst snd].
      * split; [|split].
        -- intros path Hin.
           apply elem_of_cons in Hin as [Hin|Hin]; [done|].
           apply list_elem_of_singleton in Hin as [= ->]. eauto 10.
        -- intros Hnone. exfalso. apply (Hnone absolutePath). set_solver.
        -- intros [Hnone|[= ->]]; done.
      * split; [|split].
        -- intros path Hin. apply list_elem_of_singleton in Hin. done.
        -- done.
        -- intros [Hnone|[= ->]]; done.
  - split; [|split]; [intros path Hin; by apply elem_of_nil in Hin | done | done].
Qed.

End IntrospectionCacheProperties.

(** ** The further properties at concrete inputs *)

Section FurtherExamples.
Import Examples MoreExamples.

Lemma getPackage_outcome_witness :
  exists before moduleName after exported,
    possibleModules "mysql" "handler" = before ++ moduleName :: after
    /\ ["@graphql-mesh/mysql"; "@graphql-mesh/mysql-handler"] = before ++ [moduleName]
    /\ Forall (missing (onlyModule "@graphql-mesh/mysql-handler"
                          [("default", VFun "MySQLHandler")])) before
    /\ onlyModule "@graphql-mesh/mysql-handler" [("default", VFun "MySQLHandler")]
         moduleName = Exports exported
    /\ VFun "MySQLHandler" = pickExport exported.
Proof.
  exact (@getPackage_outcome dashedNames "mysql" "handler"
           (onlyModule "@graphql-mesh/mysql-handler" [("default", VFun "MySQLHandler")])
           ["@graphql-mesh/mysql"; "@graphql-mesh/mysql-handler"]
           (Ok (VFun "MySQLHandler")) eq_refl).
Defined.

Lemma getPackage_truthy_witness :
  truthy (VObj PlainObject [("handler", VFun "h")]) = true
  /\ VObj PlainObject [("handler", VFun "h")] <> VUndefined
  /\ VObj PlainObject [("handler", VFun "h")] <> VNull.
Proof.
  exact (@getPackage_truthy dashedNames "mysql" "handler"
           (onlyModule "@graphql-mesh/mysql" [("handler", VFun "h")])
           ["@graphql-mesh/mysql"] (VObj PlainObject [("handler", VFun "h")]) eq_refl).
Defined.

Lemma possibleModules_raw_name_repeated_witness :
  length (possibleModules "json-schema" "handler") = 9
  /\ (getPackage "json-schema" "handler"
        (failing (fun _ => "Could not locate module"))).1 !! 3 = Some "json-schema"
  /\ (getPackage "json-schema" "handler"
        (failing (fun _ => "Could not locate module"))).1 !! 7 = Some "json-schema".
Proof.
  apply (@possibleModules_raw_name_repeated dashedNames "json-schema" "handler"
           (failing (fun _ => "Could not locate module")) eq_refl eq_refl).
  repeat constructor; eexists; split; reflexivity.
Defined.

Lemma specialisations_not_found_witness :
  resolveCache instantiate (Some [("redis", VNum 1); ("file", VNum 2)])
    (failing (fun _ => "Could not locate module"))
  = (possibleModules "redis" "cache", Throw "Unable to find cache matching redis").
Proof.
  apply (proj1 (@specialisations_not_found dashedNames instantiate
                  (failing (fun _ => "Could not locate module"))
                  "redis" (VNum 1) [("file", VNum 2)] "redis" VUndefined "stitching")).
  repeat constructor; eexists; split; reflexivity.
Defined.

Lemma resolveCache_constructs_witness :
  resolveCache instantiate (Some [("redis", VNum 1); ("file", VNum 2)])
    (onlyModule "@graphql-mesh/redis" interop)
  = (["@graphql-mesh/redis"], Ok (instantiate (VFun "RedisCache") (VNum 1))).
Proof.
  apply (@resolveCache_constructs dashedNames instantiate
           (onlyModule "@graphql-mesh/redis" interop)
           "redis" (VNum 1) [("file", VNum 2)]
           [] "@graphql-mesh/redis"
           [ "@graphql-mesh/redis-cache"; "@graphql-mesh/cache-redis"; "redis";
             "redis-cache"; "cache-redis"; "cache"; "/app/redis" ]
           interop eq_refl ltac:(constructor) eq_refl).
Defined.

Lemma resolvePubSub_constructs_witness :
  resolvePubSub instantiate (Some (PubSubObject "kafka" (VStr "broker:9092")))
    (onlyModule "@graphql-mesh/pubsub-kafka" [("default", VFun "KafkaPubSub")])
  = ([ "@graphql-mesh/kafka"; "@graphql-mesh/kafka-pubsub"; "@graphql-mesh/pubsub-kafka" ],
     Ok (instantiate (VFun "KafkaPubSub") (VStr "broker:9092")))
  /\ resolvePubSub instantiate (Some (PubSubName "kafka"))
       (onlyModule "@graphql-mesh/pubsub-kafka" [("default", VFun "KafkaPubSub")])
     = ([ "@graphql-mesh/kafka"; "@graphql-mesh/kafka-pubsub"; "@graphql-mesh/pubsub-kafka" ],
        Ok (instantiate (VFun "KafkaPubSub") VUndefined)).
Proof.
  destruct (@resolvePubSub_constructs dashedNames instantiate
              (onlyModule "@graphql-mesh/pubsub-kafka" [("default", VFun "KafkaPubSub")])
              "kafka" (VStr "broker:9092")
              [ "@graphql-mesh/kafka"; "@graphql-mesh/kafka-pubsub" ]
              "@graphql-mesh/pubsub-kafka"
              [ "kafka"; "kafka-pubsub"; "pubsub-kafka"; "pubsub"; "/app/kafka" ]
              [("default", VFun "KafkaPubSub")]
              eq_refl
              ltac:(repeat constructor; eexists; split; reflexivity)
              eq_refl) as [Hobject Hname].
  split; [exact Hobject | exact (Hname ltac:(discriminate))].
Defined.

Lemma resolveReturnData_not_external_witness :
  Extended.resolveReturnData (VObj PlainObject [("book", VNum 7)]) (Some "book")
    backend someInfo [ReturnType None]
  = Extended.resolveReturnData (VObj PlainObject [("book", VNum 7)]) (Some "book")
      backend someInfo []
  /\ Base.resolveReturnData (VObj PlainObject [("book", VNum 7)]) (Some "book")
       backend someInfo
     = Extended.resolveReturnData (VObj PlainObject [("book", VNum 7)]) (Some "book")
         backend someInfo [ReturnType None].
Proof.
  destruct (@resolveReturnData_not_external singleKeys tagged
              (VObj PlainObject [("book", VNum 7)]) (Some "book") backend someInfo
              [ReturnType None] [] ltac:(discriminate)) as (Hrest & Hbase & _).
  by split.
Defined.

Lemma resolveReturnData_unwraps_at_path_witness :
  Extended.resolveReturnData (external [("book", wrapper)]) (Some "book")
    backend someInfo [] = Ok cause
  /\ Extended.resolveReturnData (VObj PlainObject [("book", bare)]) (Some "book")
       backend someInfo [] = Ok VUndefined.
Proof.
  split.
  - apply (@resolveReturnData_unwraps_at_path singleKeys tagged
             (external [("book", wrapper)]) "book" backend someInfo []
             eq_refl ltac:(discriminate) eq_refl).
  - apply (@resolveReturnData_unwraps_at_path singleKeys tagged
             (VObj PlainObject [("book", bare)]) "book" backend someInfo []
             eq_refl ltac:(discriminate) eq_refl). reflexivity.
Defined.

Lemma stitchingResolve_scalar_witness :
  Extended.stitchingResolve (byTitle (Some "id")) VNull VNull library someInfo [0]
  = ([ ApiCall "Library" "book" (VObj PlainObject [("title", VStr "Dune")]) noOptions;
       ReturnData (VObj PlainObject [("id", VNum 1)]) ],
     Some (Fulfilled (VNum 1))).
Proof.
  apply (@stitchingResolve_scalar singleKeys tagged
           (byTitle (Some "id")) VNull VNull library someInfo
           (VObj PlainObject [("id", VNum 1)]) [0]
           eq_refl eq_refl eq_refl ltac:(reflexivity)).
Defined.

Lemma stitchingResolve_rejects_witness :
  exists later item' message',
    Extended.stitchingResolve (forward "Query" "books" None) VNull
      (VArr [VNum 1; VNull]) backend someInfo [1; 0]
    = ([ ApiCall "Library" "book" (VNum 1) noOptions;
         ApiCall "Library" "book" VNull noOptions ] ++ later,
       Some (Rejected message'))
    /\ item' ∈ [VNum 1; VNull]
    /\ (api backend "Library" "book" item' noOptions = Rejected message'
        \/ exists answer,
             api backend "Library" "book" item' noOptions = Fulfilled answer
             /\ instanceofError answer = false
             /\ Extended.resolveReturnData answer None backend someInfo
                  [ReturnType (Some (NamedType "Book"))]
                = Throw message').
Proof.
  apply (@stitchingResolve_rejects singleKeys tagged
           (forward "Query" "books" None) VNull (VArr [VNum 1; VNull]) backend someInfo
           1 VNull "bad request" [1; 0] eq_refl eq_refl).
  by apply (bool_decide_unpack _).
Defined.

(** One answer that is [null]: the extractor throws and the field
    rejects. *)
Example stitchingResolve_scalar_null :
  Extended.stitchingResolve (forward "Query" "book" (Some "id")) VNull
    (VNum 1) mute someInfo [0]
  = ([ApiCall "Library" "book" (VNum 1) noOptions; ReturnData VNull],
     Some (Rejected "Cannot read properties of undefined")).
Proof. reflexivity. Qed.

(** A call that rejects next to an answer that is [null]: the field
    rejects with the error of the element that settles first. *)
Example stitchingResolve_rejects_first :
  (Extended.stitchingResolve (forward "Query" "books" None) VNull
     (VArr [VNum 1; VNull]) patchy someInfo [0; 1]).2
  = Some (Rejected "Cannot read properties of null")
  /\ (Extended.stitchingResolve (forward "Query" "books" None) VNull
        (VArr [VNum 1; VNull]) patchy someInfo [1; 0]).2
     = Some (Rejected "bad request").
Proof. split; reflexivity. Qed.

(** The older revision rejects on an answer that is [null] as well. *)
Example Base_stitchingResolve_null :
  Base.stitchingResolve (forward "Query" "book" None) VNull VNull mute someInfo [0]
  = ([ApiCall "Library" "book" (VObj PlainObject []) noOptions; ReturnData VNull],
     Some (Rejected "Cannot read properties of null")).
Proof. reflexivity. Qed.

Lemma stitchingResolve_revisions_agree_witness :
  Extended.stitchingResolve (byTitle (Some "id")) VNull VNull library someInfo [0]
  = Base.stitchingResolve (byTitle (Some "id")) VNull VNull library someInfo [0].
Proof.
  apply (proj2 (@stitchingResolve_revisions_agree singleKeys tagged
                  (byTitle (Some "id")) VNull VNull library someInfo
                  [("title", "Dune")] eq_refl eq_refl)
           (VObj PlainObject [("id", VNum 1)]) eq_refl eq_refl ltac:(discriminate)).
Defined.

Lemma Base_stitchingResolve_Error_witness :
  Base.stitchingResolve (byTitle (Some "id")) VNull VNull closed someInfo [0]
  = ([ ApiCall "Library" "book" (VObj PlainObject [("title", VStr "Dune")]) noOptions;
       ReturnData (VObj ErrorClass [("message", VStr "closed")]) ],
     Some (Fulfilled (VObj ErrorClass [("message", VStr "closed")]))).
Proof.
  apply (@Base_stitchingResolve_Error singleKeys tagged
           (byTitle (Some "id")) VNull VNull closed someInfo
           [("title", "Dune")] (VObj ErrorClass [("message", VStr "closed")]) [0]
           eq_refl eq_refl eq_refl eq_refl).
Defined.

End FurtherExamples.

Section FurtherSynthesizerExamples.
Import Examples MoreExamples.

Lemma resolveAdditionalResolvers_inline_witness :
  exists resolvers,
    Extended.resolveAdditionalResolvers "/app"
      (Some [StitchingObject (forward "Query" "a" None);
             SubscriptionObject (topic "Subscription" "b" "topic/b")])
      (failing (fun _ => "Unexpected token")) (fun topic => topic) [1; 0]
    = ([], Some (Fulfilled resolvers)).
Proof.
  apply (@resolveAdditionalResolvers_inline dashedNames singleKeys
           (fun payload returnData context info =>
              Extended.resolveReturnData payload returnData context info [])
           Extended.stitchingResolver
           "/app" (failing (fun _ => "Unexpected token")) (fun topic => topic)
           [StitchingObject (forward "Query" "a" None);
            SubscriptionObject (topic "Subscription" "b" "topic/b")]
           [1; 0] eq_refl).
  by apply (bool_decide_unpack _).
Defined.

Lemma resolveAdditionalResolvers_load_failure_witness :
  exists filePath' message',
    (Extended.resolveAdditionalResolvers "/app"
       (Some [StitchingObject (forward "Query" "a" None); FilePath "resolvers.js"])
       (failing (fun _ => "Unexpected token")) (fun topic => topic) [0; 1]).2
    = Some (Rejected message')
    /\ FilePath filePath'
       ∈ [StitchingObject (forward "Query" "a" None); FilePath "resolvers.js"]
    /\ failing (fun _ => "Unexpected token") (path_resolve "/app" filePath')
       = LoadError message'.
Proof.
  apply (@resolveAdditionalResolvers_load_failure dashedNames singleKeys
           (fun payload returnData context info =>
              Extended.resolveReturnData payload returnData context info [])
           Extended.stitchingResolver
           "/app" (failing (fun _ => "Unexpected token")) (fun topic => topic)
           [StitchingObject (forward "Query" "a" None); FilePath "resolvers.js"]
           [0; 1] 1 "resolvers.js" "Unexpected token" eq_refl eq_refl).
  by apply (bool_decide_unpack _).
Defined.

Lemma resolveAdditionalResolvers_order_irrelevant_witness :
  exists resolvers,
    (Extended.resolveAdditionalResolvers "/app"
       (Some [FilePath "resolvers.js"; StitchingObject (forward "Query" "a" None)])
       (onlyModule "/app/resolvers.js" [("resolvers", bookResolvers)])
       (fun topic => topic) [0; 1]).2
    = Some (Fulfilled resolvers)
    /\ (Extended.resolveAdditionalResolvers "/app"
          (Some [FilePath "resolvers.js"; StitchingObject (forward "Query" "a" None)])
          (onlyModule "/app/resolvers.js" [("resolvers", bookResolvers)])
          (fun topic => topic) [1; 0]).2
       = Some (Fulfilled resolvers).
Proof.
  apply (@resolveAdditionalResolvers_order_irrelevant dashedNames singleKeys
           (fun payload returnData context info =>
              Extended.resolveReturnData payload returnData context info [])
           Extended.stitchingResolver
           "/app" (onlyModule "/app/resolvers.js" [("resolvers", bookResolvers)])
           (fun topic => topic)
           [FilePath "resolvers.js"; StitchingObject (forward "Query" "a" None)]
           [0; 1] [1; 0]).
  - repeat constructor; eexists; reflexivity.
  - by apply (bool_decide_unpack _).
  - by apply (bool_decide_unpack _).
Defined.

Lemma resolveAdditionalTypeDefs_documents_witness :
  resolveAdditionalTypeDefs "/app" (Some "types")
  = ([("types", "/app")], Fulfilled (VArr [parsed "type A"; parsed "type B"])).
Proof.
  apply (@resolveAdditionalTypeDefs_documents fourPointers "/app" "types"
           [ {| document := parsed "type A"; rawSDL := VStr "type {"; schema := VUndefined |};
             {| document := parsed "type B"; rawSDL := VUndefined; schema := VUndefined |} ]
           ltac:(discriminate) eq_refl).
  repeat constructor.
Defined.

Lemma resolveAdditionalTypeDefs_fulfilled_witness :
  (([("mixed", "/app")] : list (string * string)) = []
   /\ VArr [parsed "type A"; parsed "type B"; parsed "schema { query: Query }"]
      = VUndefined
   /\ (Some "mixed" = None \/ Some "mixed" = Some ""))
  \/ (exists pointer sources docs,
        Some "mixed" = Some pointer /\ pointer <> ""
        /\ [("mixed", "/app")] = [(pointer, "/app")]
        /\ loadTypedefs pointer "/app" = Fulfilled sources
        /\ VArr [parsed "type A"; parsed "type B"; parsed "schema { query: Query }"]
           = VArr docs
        /\ length docs = length sources
        /\ Forall2
             (fun source doc =>
                (truthy (document source) = true /\ doc = document source)
                \/ (truthy (document source) = false /\ truthy (rawSDL source) = true
                    /\ parse (rawSDL source) = Ok doc)
                \/ (truthy (document source) = false /\ truthy (rawSDL source) = false
                    /\ exists printed,
                         printSchemaWithDirectives (schema source) = Ok printed
                         /\ parse printed = Ok doc))
             sources docs).
Proof.
  exact (@resolveAdditionalTypeDefs_fulfilled fourPointers "/app" (Some "mixed")
           [("mixed", "/app")]
           (VArr [parsed "type A"; parsed "type B"; parsed "schema { query: Query }"])
           eq_refl).
Defined.

Lemma resolveAdditionalTypeDefs_rejects_witness :
  resolveAdditionalTypeDefs "/app" (Some "broken")
  = ([("broken", "/app")], Rejected "Syntax Error")
  /\ resolveAdditionalTypeDefs "/app" (Some "nowhere")
     = ([("nowhere", "/app")], Rejected "Unable to find any GraphQL type definitions").
Proof.
  split.
  - apply (proj2 (@resolveAdditionalTypeDefs_rejects fourPointers "/app" "broken"
                    ltac:(discriminate))
             [textOnly "type B"] (textOnly "type {") [textOnly "type C"]
             [parsed "type B"] "Syntax Error" eq_refl
             ltac:(repeat constructor) eq_refl).
  - apply (proj1 (@resolveAdditionalTypeDefs_rejects fourPointers "/app" "nowhere"
                    ltac:(discriminate))
             "Unable to find any GraphQL type definitions" eq_refl).
Defined.

Example resolveIntrospectionCache_found :
  resolveIntrospectionCache (Some ".mesh/cache.json") "/app"
  = ([PathExists "/app/.mesh/cache.json"; ReadJSON "/app/.mesh/cache.json"],
     Fulfilled (VObj PlainObject [("Library", VStr "schema")])).
Proof. reflexivity. Qed.

Example resolveIntrospectionCache_absent :
  resolveIntrospectionCache (Some "/tmp/cache.json") "/app"
  = ([PathExists "/tmp/cache.json"], Fulfilled (VObj PlainObject [])).
Proof. reflexivity. Qed.

End FurtherSynthesizerExamples.
